(** * backscrub: verification of [app/utils.cc]

    A shallow embedding of the four helpers of [src/app/utils.cc]
    ([fourCcFromString], [convert_rgb_to_yuyv], [alpha_blend],
    [resolve_path]) and the properties the specification states about
    them.

    Conventions of the embedding:
    - machine integers are [Z] with the wrap-around written out;
    - a buffer is a [list Z] of bytes, a pointer into it is the list of
      the bytes that remain in front of it;
    - a C++ call ends in an [outcome]: it returns, throws, aborts on a
      failed [assert], or leaves the behaviour the language defines. *)

From Stdlib Require Import ZArith Lia.
From stdpp Require Import base option list strings gmap.

Local Open Scope Z_scope.

(** ** Outcomes of a C++ call *)

Inductive cxx_exception : Type :=
| invalid_argument   (* std::invalid_argument *)
| out_of_range.      (* std::out_of_range *)

Inductive outcome (A : Type) : Type :=
| Returned (a : A)             (* normal return *)
| Threw (e : cxx_exception)    (* an exception leaves the function *)
| Aborted                      (* a failed assert: abort() *)
| Undefined                    (* undefined behaviour *)
| Unfinished.                  (* the loop budget of the model ran out *)

Arguments Returned {A} a.
Arguments Threw {A} e.
Arguments Aborted {A}.
Arguments Undefined {A}.
Arguments Unfinished {A}.

Definition obind {A B : Type} (o : outcome A) (k : A -> outcome B) : outcome B :=
  match o with
  | Returned a => k a
  | Threw e => Threw e
  | Aborted => Aborted
  | Undefined => Undefined
  | Unfinished => Unfinished
  end.

(** [outcome] is a monad; the code below is written with stdpp's
    [x ← o; k] notation. *)
#[global] Instance outcome_ret : MRet outcome := fun A a => Returned a.
#[global] Instance outcome_bind : MBind outcome := fun A B k o => obind o k.

(** A call is recoverable when control comes back to the caller, by a
    return value or by an exception the caller can catch. *)
Definition recoverable {A : Type} (o : outcome A) : Prop :=
  match o with
  | Returned _ | Threw _ => True
  | _ => False
  end.

(** ** Machine integers *)

Definition INT_MAX : Z := 2 ^ 31 - 1.
Definition INT_MIN : Z := - 2 ^ 31.
Definition LONG_MAX : Z := 2 ^ 63 - 1.
Definition LONG_MIN : Z := - 2 ^ 63.

(** conversion to [uint8_t], [unsigned int] and [size_t] *)
Definition u8 (z : Z) : Z := z mod 2 ^ 8.
Definition u32 (z : Z) : Z := z mod 2 ^ 32.
Definition size_t (z : Z) : Z := z mod 2 ^ 64.
(** conversion to [char] (signed) and to [int] *)
Definition s8 (z : Z) : Z := (z + 2 ^ 7) mod 2 ^ 8 - 2 ^ 7.
Definition s32 (z : Z) : Z := (z + 2 ^ 31) mod 2 ^ 32 - 2 ^ 31.

(** [int * int]: signed overflow is undefined. *)
Definition int_mul (x y : Z) : outcome Z :=
  if (INT_MIN <=? x * y) && (x * y <=? INT_MAX) then Returned (x * y) else Undefined.

Definition is_byte (z : Z) : bool := (0 <=? z) && (z <=? 255).

(** ** The image matrix (cv::Mat)

    Only what [utils.cc] reads of a matrix: [rows], [cols], [type()] and
    the bytes behind [data], which are those of a continuous matrix, row
    after row with the channels of a pixel next to each other. *)

Record Mat : Type := mkMat {
  rows : Z;
  cols : Z;
  type : Z;
  data : list Z
}.

(** OpenCV's type codes: [CV_MAKETYPE(depth, cn) = depth + ((cn - 1) << 3)]. *)
Definition CV_8U : Z := 0.
Definition CV_MAKETYPE (depth cn : Z) : Z := depth + Z.shiftl (cn - 1) 3.
Definition CV_8UC1 : Z := CV_MAKETYPE CV_8U 1.
Definition CV_8UC2 : Z := CV_MAKETYPE CV_8U 2.
Definition CV_8UC3 : Z := CV_MAKETYPE CV_8U 3.

(** bytes per element of a type code: channels times bytes per channel *)
Definition channels (t : Z) : Z := Z.shiftr t 3 + 1.
Definition elemSize1 (t : Z) : Z :=
  let depth := Z.land t 7 in
  if depth <=? 1 then 1
  else if depth <=? 3 then 2
  else if depth <=? 5 then 4
  else if depth =? 6 then 8
  else 2.
Definition elemSize (t : Z) : Z := channels t * elemSize1 t.

(** [Mat::total()] *)
Definition total (m : Mat) : Z := rows m * cols m.

(** [cv::Mat::zeros(size, type)] *)
Definition zeros (r c t : Z) : Mat :=
  mkMat r c t (replicate (Z.to_nat (r * c * elemSize t)) 0).

(** A well-formed 8-bit image of [cn] channels: the type code says so,
    the buffer holds [rows * cols * cn] bytes. *)
Definition is_image (cn : Z) (m : Mat) : bool :=
  (type m =? CV_MAKETYPE CV_8U cn) && (0 <=? rows m) && (0 <=? cols m)
  && (Z.of_nat (length (data m)) =? rows m * cols m * cn)
  && forallb is_byte (data m).

(** byte of channel [c] of pixel [p] of an image of [cn] channels *)
Definition px (cn : nat) (m : Mat) (p c : nat) : option Z :=
  data m !! (p * cn + c)%nat.

(** ** Pointers into buffers *)

(** [*p++] as a read: the byte under the pointer and the pointer moved on;
    past the end of the buffer the read is undefined. *)
Definition load (p : list Z) : outcome (Z * list Z) :=
  match p with
  | [] => Undefined
  | x :: p' => Returned (x, p')
  end.

(** [*p++ = v]: the byte written and the pointer moved on. *)
Definition store (p : list Z) (v : Z) : outcome (Z * list Z) :=
  match p with
  | [] => Undefined
  | _ :: p' => Returned (v, p')
  end.

(** [assert(c)]: compiled out under NDEBUG. *)
Definition assert (ndebug c : bool) : outcome unit :=
  if ndebug then Returned tt else if c then Returned tt else Aborted.

(** ** alpha_blend (utils.cc, lines 67-99) *)

(** one channel byte of line 93 *)
Definition blend_byte (a b aw bw : Z) : Z := u8 ((a * aw + b * bw) ÷ 255).

(** The loop of lines 87-96, [n] pixels to go. The result is the content
    of the output buffer from [optr] on. *)
Fixpoint blend_loop (n : nat) (aptr bptr mptr optr : list Z) : outcome (list Z) :=
  match n with
  | O => Returned optr
  | S n' =>
    '(m, mptr) ← load mptr;
    let aw := m in
    let bw := 255 - aw in
    '(a0, aptr) ← load aptr ; '(b0, bptr) ← load bptr;
    '(o0, optr) ← store optr (blend_byte a0 b0 aw bw);
    '(a1, aptr) ← load aptr ; '(b1, bptr) ← load bptr;
    '(o1, optr) ← store optr (blend_byte a1 b1 aw bw);
    '(a2, aptr) ← load aptr ; '(b2, bptr) ← load bptr;
    '(o2, optr) ← store optr (blend_byte a2 b2 aw bw);
    rest ← blend_loop n' aptr bptr mptr optr;
    Returned (o0 :: o1 :: o2 :: rest)
  end.

Definition alpha_blend (ndebug : bool) (srca srcb mask : Mat) : outcome Mat :=
  _ ← assert ndebug (rows srca =? rows srcb);
  _ ← assert ndebug (cols srca =? cols srcb);
  _ ← assert ndebug (rows mask =? rows srca);
  _ ← assert ndebug (cols mask =? cols srca);
  _ ← assert ndebug (type srca =? CV_8UC3);
  _ ← assert ndebug (type srcb =? CV_8UC3);
  _ ← assert ndebug (type mask =? CV_8UC1);
  let aptr := data srca in
  let bptr := data srcb in
  let mptr := data mask in
  let out := zeros (rows srca) (cols srca) (type srca) in
  let optr := data out in
  n ← int_mul (rows srca) (cols srca);
  let npix := size_t n in
  odata ← blend_loop (Z.to_nat npix) aptr bptr mptr optr;
  Returned (mkMat (rows out) (cols out) (type out) odata).

(** ** convert_rgb_to_yuyv (utils.cc, lines 42-65) *)

(** [buf[i]] as a read and as a write; outside the buffer both are
    undefined. *)
Definition rd (buf : list Z) (i : Z) : outcome Z :=
  match buf !! Z.to_nat i with
  | Some x => Returned x
  | None => Undefined
  end.

Definition wr (buf : list Z) (i : Z) (v : Z) : outcome (list Z) :=
  if i <? Z.of_nat (length buf) then Returned (<[Z.to_nat i := v]> buf) else Undefined.

(** [cv::split]: plane [k] of an interleaved buffer of [cn] channels. *)
Definition plane (cn k : nat) (buf : list Z) : list Z :=
  (fun p => default 0 (buf !! (p * cn + k)%nat)) <$> seq 0 (length buf `div` cn)%nat.

Definition split (m : Mat) : list Mat :=
  let cn := Z.to_nat (channels (type m)) in
  (fun k => mkMat (rows m) (cols m) (CV_MAKETYPE (Z.land (type m) 7) 1) (plane cn k (data m)))
    <$> seq 0 cn.

(** [v[k]] on a std::vector: outside the vector it is undefined. *)
Definition vec_at {A : Type} (v : list A) (k : nat) : outcome A :=
  match v !! k with
  | Some x => Returned x
  | None => Undefined
  end.

(** The loop of lines 54-62. [i] is an [unsigned int], so [i + 1],
    [2 * i + k] and [i += 2] are taken modulo 2^32; [total] is the
    [size_t] the counter is compared with. Each unit of [fuel] pays for
    one test of the loop condition. *)
Fixpoint yuyv_loop (fuel : nat) (total i : Z) (ydata udata vdata outdata : list Z)
  : outcome (list Z) :=
  match fuel with
  | O => Unfinished
  | S fuel' =>
    if i <? total then
      u0 ← rd udata i; u1 ← rd udata (u32 (i + 1));
      let u := u8 ((u0 + u1) ÷ 2) in
      v0 ← rd vdata i; v1 ← rd vdata (u32 (i + 1));
      let v := u8 ((v0 + v1) ÷ 2) in
      y0 ← rd ydata (u32 (i + 0));
      outdata ← wr outdata (u32 (u32 (2 * i) + 0)) y0;
      outdata ← wr outdata (u32 (u32 (2 * i) + 1)) v;
      y1 ← rd ydata (u32 (i + 1));
      outdata ← wr outdata (u32 (u32 (2 * i) + 2)) y1;
      outdata ← wr outdata (u32 (u32 (2 * i) + 3)) u;
      yuyv_loop fuel' total (u32 (i + 2)) ydata udata vdata outdata
    else Returned outdata
  end.

Section Converter.

(** [cv::cvtColor(_, _, cv::COLOR_RGB2YUV)], a service of the image
    library. *)
Variable cvtColor_RGB2YUV : Mat -> Mat.

(** A matrix that is allocated and not initialised holds whatever the
    allocator left: [junk k] is the byte at offset [k]. *)
Variable junk : nat -> Z.

Definition convert_rgb_to_yuyv (fuel : nat) (input : Mat) : outcome Mat :=
  let tmp := cvtColor_RGB2YUV input in
  let yuv := split tmp in
  let yuyv := mkMat (rows tmp) (cols tmp) CV_8UC2
                    (junk <$> seq 0 (Z.to_nat (rows tmp * cols tmp * elemSize CV_8UC2))) in
  let outdata := data yuyv in
  y ← vec_at yuv 0; let ydata := data y in
  u ← vec_at yuv 1; let udata := data u in
  v ← vec_at yuv 2; let vdata := data v in
  outdata ← yuyv_loop fuel (size_t (total yuyv)) 0 ydata udata vdata outdata;
  Returned (mkMat (rows yuyv) (cols yuyv) (type yuyv) outdata).

End Converter.

(** ** fourCcFromString (utils.cc, lines 15-39) *)

Definition char_code (c : Ascii.ascii) : Z := Z.of_N (Ascii.N_of_ascii c).

(** [::toupper] in the "C" locale, on the character as a byte: the
    letters [a] to [z] move to [A] to [Z], every other byte stays. *)
Definition toupper (c : Z) : Z :=
  if (97 <=? c) && (c <=? 122) then c - 32 else c.

(** The loop of lines 26-27 from index [i] on, over the characters of
    [in] that are left. *)
Fixpoint upper_loop (i : nat) (rest : string) (a : list Z) : list Z :=
  match rest with
  | EmptyString => a
  | String c rest' => upper_loop (S i) rest' (<[i := u8 (toupper (char_code c))]> a)
  end.

(** [cv::VideoWriter::fourcc(char, char, char, char)] of the video
    library: [(c1 & 255) + ((c2 & 255) << 8) + ((c3 & 255) << 16) +
    ((c4 & 255) << 24)], an [int]. *)
Definition fourcc (c1 c2 c3 c4 : Z) : Z :=
  s32 (Z.land c1 255 + Z.shiftl (Z.land c2 255) 8
       + Z.shiftl (Z.land c3 255) 16 + Z.shiftl (Z.land c4 255) 24).

(** [std::stoi(str, nullptr, 16)]: [strtol] in base 16, then the checks
    of the standard library's wrapper. *)
Definition isspace (c : Z) : bool := (c =? 32) || ((9 <=? c) && (c <=? 13)).

Definition hex_digit (c : Z) : option Z :=
  if (48 <=? c) && (c <=? 57) then Some (c - 48)
  else if (97 <=? c) && (c <=? 102) then Some (c - 87)
  else if (65 <=? c) && (c <=? 70) then Some (c - 55)
  else None.

Fixpoint skip_space (s : string) : string :=
  match s with
  | String c s' => if isspace (char_code c) then skip_space s' else s
  | EmptyString => s
  end.

(** the digits at the front of [s]: their value on top of [acc] and how
    many there are on top of [n] *)
Fixpoint hex_digits (s : string) (acc : Z) (n : nat) : Z * nat :=
  match s with
  | String c s' =>
    match hex_digit (char_code c) with
    | Some d => hex_digits s' (acc * 16 + d) (S n)
    | None => (acc, n)
    end
  | EmptyString => (acc, n)
  end.

Definition skip_sign (s : string) : bool * string :=
  match s with
  | String c s' =>
    if char_code c =? 45 then (true, s')
    else if char_code c =? 43 then (false, s')
    else (false, s)
  | EmptyString => (false, s)
  end.

(** an optional [0x] or [0X], only in front of a hex digit *)
Definition skip_0x (s : string) : string :=
  match s with
  | String z (String x (String d s')) =>
    if (char_code z =? 48) && ((char_code x =? 120) || (char_code x =? 88))
       && bool_decide (is_Some (hex_digit (char_code d)))
    then String d s' else s
  | _ => s
  end.

(** [strtol(str, &end, 16)]: [None] when nothing was converted
    ([end == str]); otherwise the value, clamped to a [long], and whether
    [errno] is [ERANGE]. *)
Definition strtol16 (s : string) : option (Z * bool) :=
  let '(neg, s2) := skip_sign (skip_space s) in
  let '(v, n) := hex_digits (skip_0x s2) 0 0 in
  match n with
  | O => None
  | S _ =>
    let r := if neg then - v else v in
    if r <? LONG_MIN then Some (LONG_MIN, true)
    else if LONG_MAX <? r then Some (LONG_MAX, true)
    else Some (r, false)
  end.

Definition stoi16 (s : string) : outcome Z :=
  match strtol16 s with
  | None => Threw invalid_argument
  | Some (v, erange) =>
    if erange || (v <? INT_MIN) || (INT_MAX <? v) then Threw out_of_range
    else Returned v
  end.

Definition fourCcFromString (in_ : string) : outcome Z :=
  let size := Z.of_nat (String.length in_) in
  if size =? 0 then Returned 0
  else if size <=? 4 then
    let a := upper_loop 0 in_ [32; 32; 32; 32] in
    a0 ← vec_at a 0; a1 ← vec_at a 1; a2 ← vec_at a 2; a3 ← vec_at a 3;
    Returned (fourcc (s8 a0) (s8 a1) (s8 a2) (s8 a3))
  else if size =? 8 then stoi16 in_
  else Returned 0.

(** ** resolve_path (utils.cc, lines 113-194) *)

(** What the resolver reads of the process and the machine: the
    environment, the paths [std::ifstream] opens for reading, and the
    target of [/proc/self/exe] ([None] when [readlink] fails). *)
Record World : Type := mkWorld {
  environ : gmap string string;
  readable : gset string;
  self_exe : option string
}.

(** The calls that leave the process, in the order they are made. *)
Inductive event : Type :=
| EvOpen (path : string)       (* std::ifstream(path) *)
| EvGetenv (name : string)     (* getenv(name) *)
| EvReadlink (path : string).  (* readlink(path, ...) *)

(** A computation that makes such calls: from the calls made so far to
    the calls made after it, and its outcome. *)
Definition io (A : Type) : Type := list event -> list event * outcome A.

#[global] Instance io_ret : MRet io := fun A a t => (t, Returned a).
#[global] Instance io_bind : MBind io := fun A B k m t =>
  match m t with
  | (t', Returned a) => k a t'
  | (t', Threw e) => (t', Threw e)
  | (t', Aborted) => (t', Aborted)
  | (t', Undefined) => (t', Undefined)
  | (t', Unfinished) => (t', Unfinished)
  end.

Definition io_undefined {A : Type} : io A := fun t => (t, Undefined).
Definition io_lift {A : Type} (o : outcome A) : io A := fun t => (t, o).

(** [std::string(p)] from a [char*]: undefined on a null pointer. *)
Definition from_cstr (p : option string) : io string :=
  match p with
  | Some s => mret s
  | None => io_undefined
  end.

(** The pattern [^[[:alpha:]][[:alnum:]+-.]{1,}:.*$] of line 119 under
    [std::regex_match], ECMAScript grammar, "C" locale. In the bracket
    [+-.] is the range from [+] to [.]; the dot outside it matches all
    but the line ends. No character of the bracket is a colon, so the
    scheme ends at the first colon. *)
Definition isalpha (c : Z) : bool :=
  ((65 <=? c) && (c <=? 90)) || ((97 <=? c) && (c <=? 122)).
Definition isalnum (c : Z) : bool := isalpha c || ((48 <=? c) && (c <=? 57)).
Definition scheme_char (c : Z) : bool := isalnum c || ((43 <=? c) && (c <=? 46)).
Definition any_char (c : Z) : bool := negb (c =? 10) && negb (c =? 13).

Fixpoint all_chars (f : Z -> bool) (s : string) : bool :=
  match s with
  | EmptyString => true
  | String c s' => f (char_code c) && all_chars f s'
  end.

(** [[[:alnum:]+-.]{1,}:.*$] after [n] characters of the scheme *)
Fixpoint match_scheme_rest (s : string) (n : nat) : bool :=
  match s with
  | EmptyString => false
  | String c s' =>
    if scheme_char (char_code c) then match_scheme_rest s' (S n)
    else if char_code c =? 58 then bool_decide (n ≠ O) && all_chars any_char s'
    else false
  end.

Definition regex_match_uri (s : string) : bool :=
  match s with
  | EmptyString => false
  | String c s' => isalpha (char_code c) && match_scheme_rest s' O
  end.

(** [std::string::npos] and the searches of [std::string] *)
Definition npos : Z := 2 ^ 64 - 1.

(** [s.find(c) != s.npos] *)
Fixpoint contains (c : Z) (s : string) : bool :=
  match s with
  | EmptyString => false
  | String x s' => (char_code x =? c) || contains c s'
  end.

(** [s.rfind(c, pos)]: the last index not after [pos] that holds [c],
    [npos] when there is none; [i] is the index of the head of [s] and
    [best] the answer so far. *)
Fixpoint rfind_from (s : string) (c pos i best : Z) : Z :=
  match s with
  | EmptyString => best
  | String x s' =>
    rfind_from s' c pos (i + 1) (if (i <=? pos) && (char_code x =? c) then i else best)
  end.

Definition rfind (s : string) (c pos : Z) : Z := rfind_from s c pos 0 npos.

(** [s.erase(pos)]: [s] cut down to its first [pos] characters;
    [std::out_of_range] when [pos] is past the end. *)
Definition erase (s : string) (pos : Z) : outcome string :=
  if Z.of_nat (String.length s) <? pos then Threw out_of_range
  else Returned (String.substring 0 (Z.to_nat pos) s).

(** The strings [std::getline(stream, result, ':')] hands out until it
    fails: the pieces between colons, without an empty piece at the very
    end of the stream. *)
Fixpoint getlines (s : string) : list string :=
  match s with
  | EmptyString => []
  | String c s' =>
    if char_code c =? 58 then EmptyString :: getlines s'
    else match getlines s' with
         | [] => [String c EmptyString]
         | piece :: pieces => String c piece :: pieces
         end
  end.

Section Resolver.

(** [_STR(INSTALL_PREFIX)], fixed when the program is built. *)
Variable INSTALL_PREFIX : string.
Variable w : World.

(** [std::ifstream(path).good()] *)
Definition ifstream_good (path : string) : io bool :=
  fun t => (t ++ [EvOpen path], Returned (bool_decide (path ∈ readable w))).

Definition getenv (name : string) : io (option string) :=
  fun t => (t ++ [EvGetenv name], Returned (environ w !! name)).

(** [readlink(path, buf, bufsize)]: the count it returns and the bytes
    it leaves in the buffer. *)
Definition readlink (path : string) (bufsize : Z) : io (Z * string) :=
  fun t => (t ++ [EvReadlink path],
            Returned match self_exe w with
                     | None => (-1, EmptyString)
                     | Some target =>
                       (Z.min (Z.of_nat (String.length target)) bufsize,
                        String.substring 0 (Z.to_nat bufsize) target)
                     end).

(** The loop of lines 136-141 over the pieces of BACKSCRUB_PATH. *)
Fixpoint search_path (pieces : list string) (provided type : string) : io (option string) :=
  match pieces with
  | [] => mret None
  | result :: pieces' =>
    let result := result +:+ "/" +:+ type +:+ "/" +:+ provided in
    ok ← ifstream_good result;
    if ok : bool then mret (Some result) else search_path pieces' provided type
  end.

(** Lines 157-193: the locations relative to the running binary. *)
Definition resolve_binary_relative (provided type : string) : io (option string) :=
  '(n, binloc) ← readlink "/proc/self/exe" 1024;
  if (n <? 1) || (1024 <=? size_t n) then mret None else
  let result := String.substring 0 (Z.to_nat n) binloc in
  let pos := rfind result 47 npos in
  if pos =? npos then mret None else
  let pos := rfind result 47 (size_t (pos - 1)) in
  if pos =? npos then mret None else
  result ← io_lift (erase result pos);
  let result := result +:+ "/share/backscrub/" +:+ type +:+ "/" +:+ provided in
  ok ← ifstream_good result;
  if ok : bool then mret (Some result) else
  result ← io_lift (erase result pos);
  let result := result +:+ "/" +:+ type +:+ "/" +:+ provided in
  ok ← ifstream_good result;
  if ok : bool then mret (Some result) else
  mret None.

(** Lines 144-155 and on: the XDG data location, the install prefix,
    then the binary's own location. *)
Definition resolve_data_dirs (provided type : string) : io (option string) :=
  xdg ← getenv "XDG_DATA_HOME";
  result ← match xdg with
           | Some _ => xdg ← getenv "XDG_DATA_HOME"; from_cstr xdg
           | None =>
             home ← getenv "HOME";
             home ← from_cstr home;
             mret (EmptyString +:+ home +:+ "/.local/share")
           end;
  let result := result +:+ "/backscrub/" +:+ type +:+ "/" +:+ provided in
  ok ← ifstream_good result;
  if ok : bool then mret (Some result) else
  let result := EmptyString +:+ INSTALL_PREFIX +:+ "/share/backscrub/" +:+ type +:+ "/" +:+ provided in
  ok ← ifstream_good result;
  if ok : bool then mret (Some result) else
  resolve_binary_relative provided type.

Definition resolve_path (provided type : string) : io (option string) :=
  if regex_match_uri provided then mret (Some provided) else
  ok ← ifstream_good provided;
  if ok : bool then mret (Some provided) else
  if contains 47 provided then mret None else
  bsp ← getenv "BACKSCRUB_PATH";
  hit ← match bsp with
        | Some _ =>
          bsp ← getenv "BACKSCRUB_PATH";
          bsp ← from_cstr bsp;
          search_path (getlines bsp) provided type
        | None => mret None
        end;
  match hit with
  | Some result => mret (Some result)
  | None => resolve_data_dirs provided type
  end.

End Resolver.

(** ** The vocabulary of the specification *)

(** The compositor's precondition (spec 4.2): equal rows and columns,
    [a] and [b] of three 8-bit channels, the mask of one. *)
Definition blend_precondition (a b mask : Mat) : Prop :=
  rows a = rows b /\ rows b = rows mask /\ cols a = cols b /\ cols b = cols mask
  /\ type a = CV_8UC3 /\ type b = CV_8UC3 /\ type mask = CV_8UC1.

(** Valid inputs of the compositor: the precondition on well-formed
    images. *)
Definition blend_inputs (a b mask : Mat) : Prop :=
  is_image 3 a = true /\ is_image 3 b = true /\ is_image 1 mask = true
  /\ rows a = rows b /\ cols a = cols b /\ rows mask = rows a /\ cols mask = cols a.

(** The mask [255 - m]. *)
Definition mask_negate (m : Mat) : Mat :=
  mkMat (rows m) (cols m) (type m) ((fun w => 255 - w) <$> data m).

(** The characters of a string as bytes. *)
Fixpoint bytes_of (s : string) : list Z :=
  match s with
  | EmptyString => []
  | String c s' => char_code c :: bytes_of s'
  end.

(** Right-padded with spaces to exactly four bytes. *)
Definition pad4 (l : list Z) : list Z := take 4 (l ++ replicate 4 32).

(** Four bytes as a 32-bit code, the first byte in the lowest place: the
    order of the video library's tag constructor, in which the bytes of
    the code in memory read left to right. *)
Definition pack32 (l : list Z) : Z := s32 (foldr (fun b acc => b + 2 ^ 8 * acc) 0 l).

(** The FourCC of a tag of up to four letters, in the spec's words. *)
Definition fourcc_of_tag (s : string) : Z := pack32 (pad4 (toupper <$> bytes_of s)).

(** A string of hex digits read as a number. *)
Definition is_hex (c : Z) : bool := bool_decide (is_Some (hex_digit c)).
Definition hex_value (s : string) : Z :=
  foldl (fun acc c => acc * 16 + default 0 (hex_digit c)) 0 (bytes_of s).

(** The errors of numeric parsing, as against an error of the FourCC
    resolver's own. *)
Definition numeric_parse_error {A : Type} (o : outcome A) : Prop :=
  o = Threw invalid_argument \/ o = Threw out_of_range.

(** The four bytes the converter's loop writes for the pair of pixels
    [2k], [2k+1]. *)
Definition put_pair (k : nat) (y0 v y1 u : Z) (outdata : list Z) : list Z :=
  <[(4 * k + 3)%nat := u]> (<[(4 * k + 2)%nat := y1]>
    (<[(4 * k + 1)%nat := v]> (<[(4 * k)%nat := y0]> outdata))).

(** A pixel count of [n] pairs and, when [odd] is set, one pixel more. *)
Definition pixel_count (n : nat) (odd : bool) : nat :=
  (2 * n + if odd then 1 else 0)%nat.

(** ** Sample inputs *)

Definition sample_a : Mat := mkMat 1 2 CV_8UC3 [10; 20; 30; 200; 100; 0].
Definition sample_b : Mat := mkMat 1 2 CV_8UC3 [0; 255; 30; 100; 200; 255].
Definition sample_mask : Mat := mkMat 1 2 CV_8UC1 [255; 128].
(** a mask of another size than [sample_a] *)
Definition small_mask : Mat := mkMat 1 1 CV_8UC1 [255].
(** one pixel: an odd pixel count *)
Definition one_pixel : Mat := mkMat 1 1 CV_8UC3 [1; 2; 3].
(** a colour conversion that leaves the bytes as they are, and a fresh
    buffer full of zeros, to run the converter on *)
Definition same_bytes (m : Mat) : Mat := m.
Definition zero_junk (k : nat) : Z := 0.
(** a machine with an empty environment and no readable file *)
Definition bare_world : World := mkWorld ∅ ∅ None.

(** ** Further sample inputs *)

(** a second mask for [sample_a], nowhere above [sample_mask] *)
Definition light_mask : Mat := mkMat 1 2 CV_8UC1 [100; 128].
(** the header of an image of 2^31 pixels *)
Definition huge_header (t : Z) : Mat := mkMat 65536 32768 t [].
(** two pixels of one colour *)
Definition solid_pair : Mat := mkMat 1 2 CV_8UC3 [90; 54; 201; 90; 54; 201].
(** a fresh buffer full of 255, as against [zero_junk] *)
Definition ones_junk (k : nat) : Z := 255.

(** ** Upper-casing a string *)

Definition ascii_of_code (z : Z) : Ascii.ascii := Ascii.ascii_of_N (Z.to_N z).

(** every character through [toupper] *)
Fixpoint upper_string (s : string) : string :=
  match s with
  | EmptyString => EmptyString
  | String c s' => String (ascii_of_code (toupper (char_code c))) (upper_string s')
  end.

(** ** Search paths *)

(** the pieces of a search path put together again, a colon between
    neighbours *)
Fixpoint join_colon (pieces : list string) : string :=
  match pieces with
  | [] => EmptyString
  | [piece] => piece
  | piece :: pieces' => piece +:+ ":" +:+ join_colon pieces'
  end.

Fixpoint ends_with_colon (s : string) : bool :=
  match s with
  | EmptyString => false
  | String c EmptyString => char_code c =? 58
  | String _ s' => ends_with_colon s'
  end.

(** [name] in the directory [type] under [root] *)
Definition in_dir (root type name : string) : string :=
  root +:+ "/" +:+ type +:+ "/" +:+ name.

(** a machine on which [/opt/bs/models/foo.dat] is the only readable
    file, with a search path of two roots *)
Definition search_world : World :=
  mkWorld {[ "BACKSCRUB_PATH" := "/srv:/opt/bs"; "HOME" := "/home/u" ]}
          {[ "/opt/bs/models/foo.dat" ]}
          (Some "/usr/bin/backscrub").
(** a machine on which the drive-letter path [c:/m.dat] is readable *)
Definition drive_world : World := mkWorld ∅ {[ "c:/m.dat" ]} None.

(** What the resolver may hand back for the name [provided]: nothing,
    or the path of a readable file that ends in the name. *)
Definition resolved (w : World) (provided : string) (r : option string) : Prop :=
  forall p, r = Some p -> p ∈ readable w /\ exists dir, p = dir +:+ provided.

(** How a search of the later places may end: with an answer, or in
    undefined behaviour when neither XDG_DATA_HOME nor HOME is set. *)
Definition search_end (w : World) (provided : string) (o : outcome (option string)) : Prop :=
  match o with
  | Returned r => resolved w provided r
  | Undefined => environ w !! "XDG_DATA_HOME" = None /\ environ w !! "HOME" = None
  | _ => False
  end.
(** a machine whose binary is [/usr/bin/backscrub] and on which
    [/usr/models/foo.dat], in the tree the binary is built in, is the
    only readable file *)
Definition dev_world : World :=
  mkWorld {[ "HOME" := "/home/u" ]} {[ "/usr/models/foo.dat" ]} (Some "/usr/bin/backscrub").
(** a machine whose binary sits in the root directory *)
Definition root_world : World := mkWorld {[ "HOME" := "/home/u" ]} ∅ (Some "/backscrub").

(** ** Reading a hex literal

    The text [std::stoi] accepts in base 16, in words: blanks, an
    optional sign, an optional [0x] or [0X] in front of a hex digit, the
    hex digits, and a rest that is not read. *)

Definition starts_with (f : Z -> bool) (s : string) : bool :=
  match s with
  | String c _ => f (char_code c)
  | EmptyString => false
  end.

Definition is_empty (s : string) : bool :=
  match s with
  | EmptyString => true
  | String _ _ => false
  end.

Definition is_x (c : Z) : bool := (c =? 120) || (c =? 88).
Definition is_sign (c : Z) : bool := (c =? 43) || (c =? 45).

(** the sign a sign text stands for: [Some true] for a minus *)
Definition sign_text (sg : string) : option bool :=
  match sg with
  | EmptyString => Some false
  | String c EmptyString =>
    if char_code c =? 45 then Some true
    else if char_code c =? 43 then Some false
    else None
  | _ => None
  end.

(** nothing, [0x] or [0X] *)
Definition prefix_text (px : string) : bool :=
  match px with
  | EmptyString => true
  | String z (String x EmptyString) => (char_code z =? 48) && is_x (char_code x)
  | _ => false
  end.

(** [0], an [x] and a hex digit at the front *)
Definition starts_0x_digit (s : string) : bool :=
  match s with
  | String z (String x (String h _)) =>
    (char_code z =? 48) && is_x (char_code x) && is_hex (char_code h)
  | _ => false
  end.

(** [ws], [sg], [px], [d] and [r] are the blanks, the sign, the prefix,
    the digits and the rest of a text, each as long as it can be: after
    the blanks comes no blank, a missing sign is followed by no sign,
    a prefix stands in front of a digit and is not left among the
    digits, and the rest starts with no digit. *)
Definition hex_reading (ws sg px d r : string) : bool :=
  all_chars isspace ws
  && bool_decide (is_Some (sign_text sg))
  && prefix_text px
  && all_chars is_hex d
  && negb (starts_with is_hex r)
  && (if is_empty sg
      then negb (starts_with (fun c => isspace c || is_sign c) (px +:+ d +:+ r))
      else true)
  && (if is_empty px then negb (starts_0x_digit (d +:+ r)) else negb (is_empty d)).

(** What the reading comes to: no digit is [std::invalid_argument], a
    value outside an [int] is [std::out_of_range], any other value is
    returned. *)
Definition reading_outcome (sg d : string) : outcome Z :=
  if is_empty d then Threw invalid_argument
  else
    let v := match sign_text sg with
             | Some true => - hex_value d
             | _ => hex_value d
             end in
    if (INT_MIN <=? v) && (v <=? INT_MAX) then Returned v else Threw out_of_range.

(** ** Files and directories

    [std::ifstream] opens every path the process may open for reading,
    a directory as well as a regular file: on a disk with the readable
    regular files [files] and the directories [dirs], these are the
    paths for which [std::ifstream(path).good()] holds. *)
Definition ifstream_opens (files dirs : gset string) : gset string := files ∪ dirs.

(** a machine with the directory [opt/bs] and no regular file *)
Definition dir_world : World := mkWorld ∅ (ifstream_opens ∅ {[ "opt/bs" ]}) None.

(** * Properties *)

(** One step of a computation in the [outcome] monad. *)
Ltac run := cbn [mbind outcome_bind obind mret outcome_ret].

(** ** Arithmetic of one blended byte *)

Lemma is_byte_spec (z : Z) : is_byte z = true <-> 0 <= z <= 255.
Proof. unfold is_byte. rewrite andb_true_iff, !Z.leb_le. tauto. Qed.

Lemma u8_small (z : Z) : 0 <= z <= 255 -> u8 z = z.
Proof. intros H. unfold u8. apply Z.mod_small. lia. Qed.

Lemma blend_sum_bounds (a b w : Z) :
  0 <= a <= 255 -> 0 <= b <= 255 -> 0 <= w <= 255 ->
  255 * Z.min a b <= a * w + b * (255 - w) <= 255 * Z.max a b.
Proof. intros Ha Hb Hw. nia. Qed.

Lemma blend_quot_between (a b w : Z) :
  0 <= a <= 255 -> 0 <= b <= 255 -> 0 <= w <= 255 ->
  Z.min a b <= (a * w + b * (255 - w)) ÷ 255 <= Z.max a b.
Proof.
  intros Ha Hb Hw.
  pose proof (blend_sum_bounds a b w Ha Hb Hw) as [Hlo Hhi].
  rewrite Z.quot_div_nonneg by lia. split.
  - apply Z.div_le_lower_bound; lia.
  - apply Z.div_le_upper_bound; lia.
Qed.

Lemma blend_byte_exact (a b w : Z) :
  0 <= a <= 255 -> 0 <= b <= 255 -> 0 <= w <= 255 ->
  blend_byte a b w (255 - w) = (a * w + b * (255 - w)) ÷ 255.
Proof.
  intros Ha Hb Hw. unfold blend_byte. apply u8_small.
  pose proof (blend_quot_between a b w Ha Hb Hw). lia.
Qed.

(** ** The loop of [alpha_blend] *)

Lemma blend_loop_spec (n : nat) :
  forall aptr bptr mptr optr : list Z,
    length aptr = (n * 3)%nat -> length bptr = (n * 3)%nat -> length mptr = n ->
    (n * 3 <= length optr)%nat ->
    exists out,
      blend_loop n aptr bptr mptr optr = Returned out
      /\ length out = length optr
      /\ forall p c : nat, (p < n)%nat -> (c < 3)%nat ->
           exists av bv w,
             aptr !! (p * 3 + c)%nat = Some av /\ bptr !! (p * 3 + c)%nat = Some bv
             /\ mptr !! p = Some w
             /\ out !! (p * 3 + c)%nat = Some (blend_byte av bv w (255 - w)).
Proof.
  induction n as [|n IH]; intros aptr bptr mptr optr Ha Hb Hm Ho.
  - exists optr. split; [reflexivity|]. split; [reflexivity|]. intros p c Hp; lia.
  - destruct mptr as [|w mptr]; [discriminate|].
    destruct aptr as [|a0 [|a1 [|a2 aptr]]]; try discriminate.
    destruct bptr as [|b0 [|b1 [|b2 bptr]]]; try discriminate.
    destruct optr as [|z0 [|z1 [|z2 optr]]]; simpl in Ho; try lia.
    simpl in Ha, Hb, Hm.
    destruct (IH aptr bptr mptr optr) as (out & Hrun & Hlen & Hpx); try lia.
    cbn [blend_loop load store mbind outcome_bind obind]. rewrite Hrun.
    eexists. split; [reflexivity|]. split; [simpl; lia|].
    intros [|p] c Hp Hc.
    + exists (default 0 ([a0; a1; a2] !! c)), (default 0 ([b0; b1; b2] !! c)), w.
      destruct c as [|[|[|c]]]; try lia; simpl; auto.
    + destruct (Hpx p c) as (av & bv & w' & H1 & H2 & H3 & H4); [lia|lia|].
      exists av, bv, w'.
      replace (S p * 3 + c)%nat with (S (S (S (p * 3 + c)))) by lia.
      simpl. auto.
Qed.

(** Undefined behaviour apart, swapping the sources and negating the
    weights does not change what the loop computes. *)
Lemma blend_loop_swap (n : nat) :
  forall aptr bptr mptr optr : list Z,
    blend_loop n aptr bptr mptr optr
    = blend_loop n bptr aptr ((fun w => 255 - w) <$> mptr) optr.
Proof.
  induction n as [|n IH]; intros aptr bptr mptr optr; [reflexivity|].
  destruct mptr as [|w mptr]; [reflexivity|].
  assert (Hb : forall a b, blend_byte a b w (255 - w) = blend_byte b a (255 - w) (255 - (255 - w))).
  { intros a b. unfold blend_byte. do 2 f_equal. ring. }
  destruct aptr as [|a0 [|a1 [|a2 aptr]]], bptr as [|b0 [|b1 [|b2 bptr]]];
    try reflexivity;
    destruct optr as [|z0 [|z1 [|z2 optr]]]; try reflexivity;
    cbn [blend_loop load store mbind outcome_bind obind fmap list_fmap];
    try reflexivity.
  rewrite (IH aptr bptr mptr optr), !Hb. reflexivity.
Qed.

(** ** Well-formed images *)

Lemma is_image_spec (cn : Z) (m : Mat) :
  is_image cn m = true ->
  type m = CV_MAKETYPE CV_8U cn /\ 0 <= rows m /\ 0 <= cols m
  /\ Z.of_nat (length (data m)) = rows m * cols m * cn
  /\ forall i x, data m !! i = Some x -> 0 <= x <= 255.
Proof.
  unfold is_image. rewrite !andb_true_iff, Z.eqb_eq, !Z.leb_le, Z.eqb_eq.
  intros [[[[Ht Hr] Hc] Hl] Hb]. repeat split; try assumption;
    rewrite forallb_forall in Hb; apply is_byte_spec, Hb, list_elem_of_In;
    eapply list_elem_of_lookup_2; eassumption.
Qed.

Lemma size_t_small (z : Z) : 0 <= z <= INT_MAX -> size_t z = z.
Proof. unfold size_t, INT_MAX. intros H. apply Z.mod_small. lia. Qed.

Lemma int_mul_fits (x y : Z) :
  0 <= x * y <= INT_MAX -> int_mul x y = Returned (x * y).
Proof.
  intros H. unfold int_mul.
  replace (INT_MIN <=? x * y) with true by (symmetry; apply Z.leb_le; unfold INT_MIN; lia).
  replace (x * y <=? INT_MAX) with true by (symmetry; apply Z.leb_le; lia).
  reflexivity.
Qed.

Lemma assert_holds (ndebug : bool) (c : bool) : c = true -> assert ndebug c = Returned tt.
Proof. intros ->. unfold assert. destruct ndebug; reflexivity. Qed.

(** On valid inputs whose pixel count an [int] holds, [alpha_blend]
    returns an image of the size of [a] whose every byte is the blend
    of the bytes of [a] and [b] under the weight of the pixel. *)
Lemma alpha_blend_run (ndebug : bool) (a b mask : Mat) :
  blend_inputs a b mask -> rows a * cols a <= INT_MAX ->
  exists out,
    alpha_blend ndebug a b mask = Returned out
    /\ rows out = rows a /\ cols out = cols a /\ type out = CV_8UC3
    /\ Z.of_nat (length (data out)) = rows a * cols a * 3
    /\ forall p c : nat, Z.of_nat p < rows a * cols a -> (c < 3)%nat ->
         exists av bv w,
           (0 <= av <= 255 /\ 0 <= bv <= 255 /\ 0 <= w <= 255)
           /\ px 3 a p c = Some av /\ px 3 b p c = Some bv /\ px 1 mask p 0 = Some w
           /\ px 3 out p c = Some (blend_byte av bv w (255 - w)).
Proof.
  intros (Ha & Hb & Hm & Hr & Hc & Hmr & Hmc) Hfit.
  apply is_image_spec in Ha as (Hta & Hra & Hca & Hla & Hba).
  apply is_image_spec in Hb as (Htb & Hrb & Hcb & Hlb & Hbb).
  apply is_image_spec in Hm as (Htm & Hrm & Hcm & Hlm & Hbm).
  assert (Hn : 0 <= rows a * cols a) by nia.
  set (n := Z.to_nat (rows a * cols a)).
  destruct (blend_loop_spec n (data a) (data b) (data mask)
              (data (zeros (rows a) (cols a) (type a))))
    as (out & Hrun & Hlen & Hpx).
  { subst n. lia. }
  { subst n. rewrite <- Hr, <- Hc in Hlb. lia. }
  { subst n. rewrite Hmr, Hmc in Hlm. lia. }
  { subst n. unfold zeros. cbn [data]. rewrite length_replicate, Hta.
    change (elemSize (CV_MAKETYPE CV_8U 3)) with 3. lia. }
  unfold alpha_blend.
  rewrite !assert_holds by
    (apply Z.eqb_eq; first [assumption | symmetry; assumption | congruence]).
  run. rewrite int_mul_fits by lia. run.
  rewrite size_t_small by lia. fold n. rewrite Hrun. run.
  eexists. split; [reflexivity|]. cbn [rows cols type data zeros].
  repeat split; try assumption.
  - rewrite Hlen. unfold zeros. cbn [data]. rewrite length_replicate, Hta.
    change (elemSize (CV_MAKETYPE CV_8U 3)) with 3. lia.
  - intros p c Hp Hc3.
    destruct (Hpx p c) as (av & bv & w & H1 & H2 & H3 & H4); [subst n; lia|assumption|].
    exists av, bv, w. unfold px. cbn [data].
    replace (p * 1 + 0)%nat with p by lia.
    repeat split; eauto; try (eapply Hba; eassumption);
      try (eapply Hbb; eassumption); try (eapply Hbm; eassumption).
Qed.

(** ** The Alpha Compositor *)

(** C1. For same-sized 3-channel 8-bit images [a], [b] and a matching
    1-channel 8-bit mask, [alpha_blend] returns an image of the same size
    in which, for every pixel [p] and channel [c],
    [out[p][c] = (a[p][c] * w + b[p][c] * (255 - w)) / 255] with
    [w = mask[p]] and the division truncating toward zero. The pixel
    count is one that the [int] product [rows * cols] of line 87 holds. *)
Theorem alpha_blend_formula (ndebug : bool) (a b mask : Mat) :
  blend_inputs a b mask -> rows a * cols a <= INT_MAX ->
  exists out,
    alpha_blend ndebug a b mask = Returned out
    /\ rows out = rows a /\ cols out = cols a /\ type out = CV_8UC3
    /\ forall p c : nat, Z.of_nat p < rows a * cols a -> (c < 3)%nat ->
         exists av bv w,
           px 3 a p c = Some av /\ px 3 b p c = Some bv /\ px 1 mask p 0 = Some w
           /\ px 3 out p c = Some ((av * w + bv * (255 - w)) ÷ 255).
Proof.
  intros Hin Hfit.
  destruct (alpha_blend_run ndebug a b mask Hin Hfit)
    as (out & Hrun & Hr & Hc & Ht & _ & Hpx).
  exists out. repeat split; try assumption.
  intros p c Hp Hc3.
  destruct (Hpx p c Hp Hc3) as (av & bv & w & (Hav & Hbv & Hw) & H1 & H2 & H3 & H4).
  exists av, bv, w. rewrite <- blend_byte_exact by assumption. auto.
Qed.

Lemma alpha_blend_formula_witness :
  exists out,
    alpha_blend false sample_a sample_b sample_mask = Returned out
    /\ rows out = 1 /\ cols out = 2 /\ type out = CV_8UC3
    /\ forall p c : nat, Z.of_nat p < 1 * 2 -> (c < 3)%nat ->
         exists av bv w,
           px 3 sample_a p c = Some av /\ px 3 sample_b p c = Some bv
           /\ px 1 sample_mask p 0 = Some w
           /\ px 3 out p c = Some ((av * w + bv * (255 - w)) ÷ 255).
Proof.
  apply (alpha_blend_formula false sample_a sample_b sample_mask).
  - vm_compute. tauto.
  - vm_compute. discriminate.
Defined.

(** X5. Beyond that pixel count the product of line 87 overflows. *)
Lemma alpha_blend_overflow (ndebug : bool) (a b mask : Mat) :
  blend_precondition a b mask -> INT_MAX < rows a * cols a ->
  alpha_blend ndebug a b mask = Undefined.
Proof.
  intros (Hr & Hmr & Hc & Hmc & Hta & Htb & Htm) Hbig.
  unfold alpha_blend.
  rewrite !assert_holds by (apply Z.eqb_eq; congruence).
  run. unfold int_mul.
  replace (rows a * cols a <=? INT_MAX) with false by (symmetry; apply Z.leb_gt; lia).
  rewrite andb_false_r. reflexivity.
Qed.

(** C9. For same-sized 3-channel images [a], [b] and a matching mask [m],
    [blend(a, b, m)] and [blend(b, a, 255 - m)] are the same, byte for
    byte. *)
Theorem alpha_blend_swap (ndebug : bool) (a b mask : Mat) :
  blend_inputs a b mask ->
  alpha_blend ndebug a b mask = alpha_blend ndebug b a (mask_negate mask).
Proof.
  intros (Ha & Hb & Hm & Hr & Hc & Hmr & Hmc).
  apply is_image_spec in Ha as (Hta & _).
  apply is_image_spec in Hb as (Htb & _).
  apply is_image_spec in Hm as (Htm & _).
  unfold alpha_blend, mask_negate. cbn [rows cols type data].
  rewrite !assert_holds by
    (apply Z.eqb_eq; first [assumption | symmetry; assumption | congruence]).
  run. rewrite <- Hr, <- Hc, Hta, Htb.
  destruct (int_mul (rows a) (cols a)) as [n| | | |]; run; try reflexivity.
  rewrite blend_loop_swap. reflexivity.
Qed.

Lemma alpha_blend_swap_witness :
  alpha_blend false sample_a sample_b sample_mask
  = alpha_blend false sample_b sample_a (mask_negate sample_mask).
Proof.
  apply (alpha_blend_swap false sample_a sample_b sample_mask).
  vm_compute. tauto.
Defined.

(** C10. On valid inputs every output byte lies between the two input
    bytes it blends, [min(a[p][c], b[p][c]) <= out[p][c] <=
    max(a[p][c], b[p][c])]; a weight of 255 gives [a[p][c]] and a weight
    of 0 gives [b[p][c]]. *)
Theorem alpha_blend_between (ndebug : bool) (a b mask : Mat) :
  blend_inputs a b mask -> rows a * cols a <= INT_MAX ->
  exists out,
    alpha_blend ndebug a b mask = Returned out
    /\ forall p c : nat, Z.of_nat p < rows a * cols a -> (c < 3)%nat ->
         exists av bv w ov,
           px 3 a p c = Some av /\ px 3 b p c = Some bv /\ px 1 mask p 0 = Some w
           /\ px 3 out p c = Some ov
           /\ Z.min av bv <= ov <= Z.max av bv
           /\ (w = 255 -> ov = av) /\ (w = 0 -> ov = bv).
Proof.
  intros Hin Hfit.
  destruct (alpha_blend_run ndebug a b mask Hin Hfit)
    as (out & Hrun & _ & _ & _ & _ & Hpx).
  exists out. split; [assumption|].
  intros p c Hp Hc3.
  destruct (Hpx p c Hp Hc3) as (av & bv & w & (Hav & Hbv & Hw) & H1 & H2 & H3 & H4).
  exists av, bv, w, ((av * w + bv * (255 - w)) ÷ 255).
  rewrite <- blend_byte_exact at 1 by assumption.
  repeat split; try assumption; try (apply blend_quot_between; assumption).
  - intros ->. replace (av * 255 + bv * (255 - 255)) with (av * 255) by ring.
    apply Z.quot_mul. lia.
  - intros ->. replace (av * 0 + bv * (255 - 0)) with (bv * 255) by ring.
    apply Z.quot_mul. lia.
Qed.

Lemma alpha_blend_between_witness :
  exists out,
    alpha_blend false sample_a sample_b sample_mask = Returned out
    /\ forall p c : nat, Z.of_nat p < 1 * 2 -> (c < 3)%nat ->
         exists av bv w ov,
           px 3 sample_a p c = Some av /\ px 3 sample_b p c = Some bv
           /\ px 1 sample_mask p 0 = Some w
           /\ px 3 out p c = Some ov
           /\ Z.min av bv <= ov <= Z.max av bv
           /\ (w = 255 -> ov = av) /\ (w = 0 -> ov = bv).
Proof.
  apply (alpha_blend_between false sample_a sample_b sample_mask).
  - vm_compute. tauto.
  - vm_compute. discriminate.
Defined.

(** C3, as the code has it. With its assertions compiled in,
    [alpha_blend] aborts on every input that breaks the precondition:
    nothing is returned and no output is built. *)
Theorem alpha_blend_violation_aborts (a b mask : Mat) :
  ~ blend_precondition a b mask -> alpha_blend false a b mask = Aborted.
Proof.
  intros Hbad. unfold alpha_blend, assert.
  repeat match goal with
         | |- context [?x =? ?y] => destruct (Z.eqb_spec x y); run; try reflexivity
         end.
  exfalso. apply Hbad. unfold blend_precondition. repeat split; congruence.
Qed.

Lemma alpha_blend_violation_aborts_witness :
  alpha_blend false sample_a sample_b small_mask = Aborted.
Proof.
  apply (alpha_blend_violation_aborts sample_a sample_b small_mask).
  unfold blend_precondition. simpl. lia.
Defined.

(** C3, as the spec has it, fails: on a mask of another size the call
    neither returns nor throws, it aborts. *)
Lemma alpha_blend_violation_not_recoverable :
  ~ blend_precondition sample_a sample_b small_mask
  /\ alpha_blend false sample_a sample_b small_mask = Aborted
  /\ ~ recoverable (alpha_blend false sample_a sample_b small_mask).
Proof.
  split; [unfold blend_precondition; simpl; lia|].
  split; [reflexivity|]. simpl. tauto.
Qed.

(** ** The loop of [convert_rgb_to_yuyv] *)

Lemma u32_small (z : Z) : 0 <= z < 2 ^ 32 -> u32 z = z.
Proof. intros H. unfold u32. apply Z.mod_small. lia. Qed.

Lemma rd_at (buf : list Z) (i : nat) (x : Z) :
  buf !! i = Some x -> rd buf (Z.of_nat i) = Returned x.
Proof. intros H. unfold rd. rewrite Nat2Z.id, H. reflexivity. Qed.

Lemma rd_past (buf : list Z) (i : nat) :
  (length buf <= i)%nat -> rd buf (Z.of_nat i) = Undefined.
Proof.
  intros H. unfold rd. rewrite Nat2Z.id, (lookup_ge_None_2 buf i) by lia. reflexivity.
Qed.

Lemma wr_at (buf : list Z) (i : nat) (v : Z) :
  (i < length buf)%nat -> wr buf (Z.of_nat i) v = Returned (<[i := v]> buf).
Proof.
  intros H. unfold wr.
  replace (Z.of_nat i <? Z.of_nat (length buf)) with true by (symmetry; apply Z.ltb_lt; lia).
  rewrite Nat2Z.id. reflexivity.
Qed.

Lemma put_pair_length k y0 v y1 u outdata :
  length (put_pair k y0 v y1 u outdata) = length outdata.
Proof. unfold put_pair. rewrite !length_insert. reflexivity. Qed.

Lemma put_pair_other k y0 v y1 u outdata (j : nat) :
  (j < 4 * k \/ 4 * k + 4 <= j)%nat ->
  put_pair k y0 v y1 u outdata !! j = outdata !! j.
Proof.
  intros H. unfold put_pair. rewrite !list_lookup_insert_ne by lia. reflexivity.
Qed.

Lemma put_pair_here k y0 v y1 u outdata :
  (4 * k + 3 < length outdata)%nat ->
  put_pair k y0 v y1 u outdata !! (4 * k)%nat = Some y0
  /\ put_pair k y0 v y1 u outdata !! (4 * k + 1)%nat = Some v
  /\ put_pair k y0 v y1 u outdata !! (4 * k + 2)%nat = Some y1
  /\ put_pair k y0 v y1 u outdata !! (4 * k + 3)%nat = Some u.
Proof.
  intros H. unfold put_pair. repeat split.
  - rewrite !list_lookup_insert_ne by lia.
    apply list_lookup_insert_eq. lia.
  - rewrite !(list_lookup_insert_ne _ _ (4 * k + 1)%nat) by lia.
    apply list_lookup_insert_eq. rewrite length_insert. lia.
  - rewrite (list_lookup_insert_ne _ _ (4 * k + 2)%nat) by lia.
    apply list_lookup_insert_eq. rewrite !length_insert. lia.
  - apply list_lookup_insert_eq. rewrite !length_insert. lia.
Qed.

(** One turn of the loop on the pair [2k], [2k+1], both inside the
    planes, with indices that an [unsigned int] holds. *)
Lemma yuyv_loop_turn (fuel : nat) (T : Z) (k : nat) (ydata udata vdata outdata : list Z)
      (y0 y1 u0 u1 v0 v1 : Z) :
  Z.of_nat (2 * k) < T -> Z.of_nat (4 * k + 3) < 2 ^ 32 ->
  ydata !! (2 * k)%nat = Some y0 -> ydata !! (2 * k + 1)%nat = Some y1 ->
  udata !! (2 * k)%nat = Some u0 -> udata !! (2 * k + 1)%nat = Some u1 ->
  vdata !! (2 * k)%nat = Some v0 -> vdata !! (2 * k + 1)%nat = Some v1 ->
  (4 * k + 3 < length outdata)%nat ->
  yuyv_loop (S fuel) T (Z.of_nat (2 * k)) ydata udata vdata outdata
  = yuyv_loop fuel T (Z.of_nat (2 * (S k))) ydata udata vdata
      (put_pair k y0 (u8 ((v0 + v1) ÷ 2)) y1 (u8 ((u0 + u1) ÷ 2)) outdata).
Proof.
  intros HT H32 Hy0 Hy1 Hu0 Hu1 Hv0 Hv1 Hout.
  cbn [yuyv_loop].
  replace (Z.of_nat (2 * k) <? T) with true by (symmetry; apply Z.ltb_lt; lia).
  rewrite (u32_small (Z.of_nat (2 * k) + 1)), (u32_small (Z.of_nat (2 * k) + 0)),
    (u32_small (2 * Z.of_nat (2 * k))), (u32_small (Z.of_nat (2 * k) + 2)) by lia.
  rewrite !u32_small by lia.
  replace (Z.of_nat (2 * k) + 1) with (Z.of_nat (2 * k + 1)) by lia.
  replace (Z.of_nat (2 * k) + 0) with (Z.of_nat (2 * k)) by lia.
  replace (2 * Z.of_nat (2 * k) + 0) with (Z.of_nat (4 * k)) by lia.
  replace (2 * Z.of_nat (2 * k) + 1) with (Z.of_nat (4 * k + 1)) by lia.
  replace (2 * Z.of_nat (2 * k) + 2) with (Z.of_nat (4 * k + 2)) by lia.
  replace (2 * Z.of_nat (2 * k) + 3) with (Z.of_nat (4 * k + 3)) by lia.
  replace (Z.of_nat (2 * k) + 2) with (Z.of_nat (2 * S k)) by lia.
  rewrite (rd_at _ _ _ Hu0), (rd_at _ _ _ Hu1), (rd_at _ _ _ Hv0), (rd_at _ _ _ Hv1),
    (rd_at _ _ _ Hy0), (rd_at _ _ _ Hy1).
  run. rewrite wr_at by lia. run.
  rewrite wr_at by (rewrite length_insert; lia). run.
  rewrite wr_at by (rewrite !length_insert; lia). run.
  rewrite wr_at by (rewrite !length_insert; lia). run.
  reflexivity.
Qed.

Section Planes.

(** [n] pairs of pixels and, when [odd] is set, one pixel more *)
Variables (n : nat) (odd : bool).
Variables ydata udata vdata : list Z.

Abbreviation count := (pixel_count n odd).

Hypothesis Hsmall : Z.of_nat count <= 2 ^ 31.
Hypothesis Hy : length ydata = count.
Hypothesis Hu : length udata = count.
Hypothesis Hv : length vdata = count.

(** From pair [k] on, the first turns of the loop fill in the pairs
    up to [n] and leave the bytes before them alone. *)
Lemma yuyv_loop_pairs (fuel k : nat) :
  forall outdata : list Z,
    (k <= n)%nat -> (n - k <= fuel)%nat -> length outdata = (2 * count)%nat ->
    exists outdata',
      yuyv_loop (fuel + 1) (Z.of_nat count) (Z.of_nat (2 * k)) ydata udata vdata outdata
      = yuyv_loop (fuel + 1 - (n - k)) (Z.of_nat count) (Z.of_nat (2 * n))
          ydata udata vdata outdata'
      /\ length outdata' = length outdata
      /\ (forall j : nat, (j < 4 * k)%nat -> outdata' !! j = outdata !! j)
      /\ forall q : nat, (k <= q < n)%nat ->
           exists y0 y1 u0 u1 v0 v1,
             (ydata !! (2 * q)%nat = Some y0 /\ ydata !! (2 * q + 1)%nat = Some y1)
             /\ (udata !! (2 * q)%nat = Some u0 /\ udata !! (2 * q + 1)%nat = Some u1)
             /\ (vdata !! (2 * q)%nat = Some v0 /\ vdata !! (2 * q + 1)%nat = Some v1)
             /\ outdata' !! (4 * q)%nat = Some y0
             /\ outdata' !! (4 * q + 1)%nat = Some (u8 ((v0 + v1) ÷ 2))
             /\ outdata' !! (4 * q + 2)%nat = Some y1
             /\ outdata' !! (4 * q + 3)%nat = Some (u8 ((u0 + u1) ÷ 2)).
Proof.
  revert k. induction fuel as [|fuel' IH]; intros k outdata Hk Hfuel Hout.
  - assert (k = n) by lia. subst k. exists outdata.
    replace (0 + 1 - (n - n))%nat with (0 + 1)%nat by lia.
    repeat split; try reflexivity. intros q Hq; lia.
  - destruct (decide (k = n)) as [->|Hne].
    { exists outdata. replace (S fuel' + 1 - (n - n))%nat with (S fuel' + 1)%nat by lia.
      repeat split; try reflexivity. intros q Hq; lia. }
    assert (Hlt : (2 * k + 1 < count)%nat) by (unfold pixel_count; lia).
    destruct (lookup_lt_is_Some_2 ydata (2 * k)%nat) as [y0 Hy0]; [lia|].
    destruct (lookup_lt_is_Some_2 ydata (2 * k + 1)%nat) as [y1 Hy1]; [lia|].
    destruct (lookup_lt_is_Some_2 udata (2 * k)%nat) as [u0 Hu0]; [lia|].
    destruct (lookup_lt_is_Some_2 udata (2 * k + 1)%nat) as [u1 Hu1]; [lia|].
    destruct (lookup_lt_is_Some_2 vdata (2 * k)%nat) as [v0 Hv0]; [lia|].
    destruct (lookup_lt_is_Some_2 vdata (2 * k + 1)%nat) as [v1 Hv1]; [lia|].
    set (outdata1 := put_pair k y0 (u8 ((v0 + v1) ÷ 2)) y1 (u8 ((u0 + u1) ÷ 2)) outdata).
    destruct (IH (S k) outdata1) as (outdata' & Hrun & Hlen & Hkeep & Hnew);
      [lia|lia|subst outdata1; rewrite put_pair_length; lia|].
    exists outdata'.
    replace (S fuel' + 1)%nat with (S (fuel' + 1)) by lia.
    rewrite (yuyv_loop_turn _ _ _ _ _ _ _ y0 y1 u0 u1 v0 v1) by (assumption || lia).
    fold outdata1. rewrite Hrun.
    replace (S (fuel' + 1) - (n - k))%nat with (fuel' + 1 - (n - S k))%nat by lia.
    split; [reflexivity|].
    split; [rewrite Hlen; subst outdata1; apply put_pair_length|].
    split.
    + intros j Hj. rewrite Hkeep by lia. subst outdata1. apply put_pair_other. lia.
    + intros q Hq. destruct (decide (q = k)) as [->|Hqk].
      * exists y0, y1, u0, u1, v0, v1.
        destruct (put_pair_here k y0 (u8 ((v0 + v1) ÷ 2)) y1 (u8 ((u0 + u1) ÷ 2)) outdata)
          as (P0 & P1 & P2 & P3); [lia|].
        fold outdata1 in P0, P1, P2, P3.
        rewrite !Hkeep by lia. auto 10.
      * apply Hnew. lia.
Qed.

End Planes.

Lemma yuyv_loop_even (n fuel : nat) (ydata udata vdata outdata : list Z) :
  Z.of_nat (2 * n) <= 2 ^ 31 ->
  length ydata = (2 * n)%nat -> length udata = (2 * n)%nat -> length vdata = (2 * n)%nat ->
  length outdata = (4 * n)%nat -> (n < fuel)%nat ->
  exists outdata',
    yuyv_loop fuel (Z.of_nat (2 * n)) 0 ydata udata vdata outdata = Returned outdata'
    /\ length outdata' = (4 * n)%nat
    /\ forall q : nat, (q < n)%nat ->
         exists y0 y1 u0 u1 v0 v1,
           (ydata !! (2 * q)%nat = Some y0 /\ ydata !! (2 * q + 1)%nat = Some y1)
           /\ (udata !! (2 * q)%nat = Some u0 /\ udata !! (2 * q + 1)%nat = Some u1)
           /\ (vdata !! (2 * q)%nat = Some v0 /\ vdata !! (2 * q + 1)%nat = Some v1)
           /\ outdata' !! (4 * q)%nat = Some y0
           /\ outdata' !! (4 * q + 1)%nat = Some (u8 ((v0 + v1) ÷ 2))
           /\ outdata' !! (4 * q + 2)%nat = Some y1
           /\ outdata' !! (4 * q + 3)%nat = Some (u8 ((u0 + u1) ÷ 2)).
Proof.
  intros Hsmall Hy Hu Hv Hout Hfuel.
  destruct fuel as [|f]; [lia|].
  destruct (yuyv_loop_pairs n false ydata udata vdata) with (fuel := f) (k := O)
    (outdata := outdata) as (outdata' & Hrun & Hlen & _ & Hnew);
    unfold pixel_count; rewrite ?Nat.add_0_r; try assumption; try lia.
  unfold pixel_count in Hrun. rewrite Nat.add_0_r in Hrun.
  exists outdata'. replace (S f) with (f + 1)%nat by lia.
  change 0 with (Z.of_nat (2 * 0)). rewrite Hrun.
  replace (f + 1 - (n - 0))%nat with (S (f - n)) by lia.
  cbn [yuyv_loop]. rewrite Z.ltb_irrefl.
  split; [reflexivity|]. split; [lia|].
  intros q Hq. apply Hnew. lia.
Qed.

(** With a pixel left over the loop reads the planes past their end. *)
Lemma yuyv_loop_odd (n fuel : nat) (ydata udata vdata outdata : list Z) :
  Z.of_nat (2 * n + 1) <= 2 ^ 31 ->
  length ydata = (2 * n + 1)%nat -> length udata = (2 * n + 1)%nat ->
  length vdata = (2 * n + 1)%nat ->
  length outdata = (2 * (2 * n + 1))%nat -> (n < fuel)%nat ->
  yuyv_loop fuel (Z.of_nat (2 * n + 1)) 0 ydata udata vdata outdata = Undefined.
Proof.
  intros Hsmall Hy Hu Hv Hout Hfuel.
  destruct fuel as [|f]; [lia|].
  destruct (yuyv_loop_pairs n true ydata udata vdata) with (fuel := f) (k := O)
    (outdata := outdata) as (outdata' & Hrun & Hlen & _ & _);
    unfold pixel_count; try assumption; try lia.
  unfold pixel_count in Hrun.
  replace (S f) with (f + 1)%nat by lia.
  change 0 with (Z.of_nat (2 * 0)). rewrite Hrun.
  replace (f + 1 - (n - 0))%nat with (S (f - n)) by lia.
  cbn [yuyv_loop].
  replace (Z.of_nat (2 * n) <? Z.of_nat (2 * n + 1)) with true
    by (symmetry; apply Z.ltb_lt; lia).
  destruct (lookup_lt_is_Some_2 udata (2 * n)%nat) as [u0 Hu0]; [lia|].
  rewrite (rd_at _ _ _ Hu0). run.
  rewrite (u32_small (Z.of_nat (2 * n) + 1)) by lia.
  replace (Z.of_nat (2 * n) + 1) with (Z.of_nat (2 * n + 1)) by lia.
  rewrite (rd_past udata (2 * n + 1)) by lia. reflexivity.
Qed.

(** ** Planes *)

Lemma plane_length (cn k : nat) (buf : list Z) :
  length (plane cn k buf) = (length buf `div` cn)%nat.
Proof. unfold plane. rewrite length_fmap, length_seq. reflexivity. Qed.

Lemma plane_lookup (cn k p : nat) (buf : list Z) :
  (k < cn)%nat -> (p < length buf `div` cn)%nat ->
  plane cn k buf !! p = buf !! (p * cn + k)%nat.
Proof.
  intros Hk Hp. unfold plane.
  rewrite list_lookup_fmap, lookup_seq_lt by assumption. cbn.
  pose proof (Nat.Div0.mul_div_le (length buf) cn) as Hle.
  destruct (lookup_lt_is_Some_2 buf (p * cn + k)%nat) as [x Hx]; [nia|].
  rewrite Hx. reflexivity.
Qed.

Lemma split_3 (m : Mat) :
  type m = CV_8UC3 ->
  split m = [ mkMat (rows m) (cols m) CV_8UC1 (plane 3 0 (data m));
              mkMat (rows m) (cols m) CV_8UC1 (plane 3 1 (data m));
              mkMat (rows m) (cols m) CV_8UC1 (plane 3 2 (data m)) ].
Proof. intros Ht. unfold split. rewrite Ht. reflexivity. Qed.

(** ** The Pixel Format Converter *)

Lemma vec_at_0 {A : Type} (x : A) (l : list A) : vec_at (x :: l) 0 = Returned x.
Proof. reflexivity. Qed.
Lemma vec_at_1 {A : Type} (x y : A) (l : list A) : vec_at (x :: y :: l) 1 = Returned y.
Proof. reflexivity. Qed.
Lemma vec_at_2 {A : Type} (x y z : A) (l : list A) : vec_at (x :: y :: z :: l) 2 = Returned z.
Proof. reflexivity. Qed.

Lemma size_t_small64 (z : Z) : 0 <= z < 2 ^ 64 -> size_t z = z.
Proof. intros H. unfold size_t. apply Z.mod_small. lia. Qed.

Lemma half_byte (x y : Z) : 0 <= x <= 255 -> 0 <= y <= 255 -> u8 ((x + y) ÷ 2) = (x + y) ÷ 2.
Proof.
  intros Hx Hy. apply u8_small. rewrite Z.quot_div_nonneg by lia.
  split; [apply Z.div_pos; lia | apply Z.div_le_upper_bound; lia].
Qed.

(** What the converter hands to its loop, for a converted image [tmp] of
    [count] pixels. *)
Lemma convert_unfold (cvt : Mat -> Mat) (junk : nat -> Z) (fuel : nat) (input : Mat)
      (count : nat) :
  is_image 3 (cvt input) = true -> total (cvt input) = Z.of_nat count ->
  Z.of_nat count <= 2 ^ 31 ->
  let tmp := cvt input in
  let planes k := plane 3 k (data tmp) in
  (forall k, (k < 3)%nat -> length (planes k) = count)
  /\ (forall k p, (k < 3)%nat -> (p < count)%nat -> planes k !! p = px 3 tmp p k)
  /\ (forall p k x, px 3 tmp p k = Some x -> 0 <= x <= 255)
  /\ exists outdata,
       length outdata = (2 * count)%nat
       /\ convert_rgb_to_yuyv cvt junk fuel input
          = (outdata' ← yuyv_loop fuel (Z.of_nat count) 0
                         (planes 0%nat) (planes 1%nat) (planes 2%nat) outdata;
             Returned (mkMat (rows tmp) (cols tmp) CV_8UC2 outdata')).
Proof.
  intros Himg Htot Hsmall tmp planes. subst planes tmp. cbv beta.
  remember (cvt input) as tmp eqn:Etmp.
  apply is_image_spec in Himg as (Ht & Hr & Hc & Hl & Hb).
  unfold total in Htot.
  assert (Hlen : length (data tmp) = (count * 3)%nat) by lia.
  assert (Hdiv : (length (data tmp) `div` 3)%nat = count)
    by (rewrite Hlen; apply Nat.div_mul; lia).
  split; [intros k Hk; rewrite plane_length; exact Hdiv|].
  split; [intros k p Hk Hp; apply plane_lookup; lia|].
  split; [intros p k x Hx; eapply Hb; exact Hx|].
  eexists. split; cycle 1.
  - unfold convert_rgb_to_yuyv. rewrite <- Etmp.
    rewrite (split_3 tmp Ht), vec_at_0, vec_at_1, vec_at_2. run. cbn [data rows cols type].
    unfold total. cbn [rows cols]. rewrite Htot.
    rewrite size_t_small64 by lia. reflexivity.
  - rewrite length_fmap, length_seq. change (elemSize CV_8UC2) with 2. lia.
Qed.

(** C2. For an RGB image with an even pixel count the converter takes
    the Y, U and V planes of the colour-converted image and, for every
    pair of neighbouring pixels [i], [i+1] ([i] even), writes the four
    bytes [Y_i, avg_V, Y_i+1, avg_U] at offset [2*i], the averages being
    [(U_i + U_i+1) / 2] and [(V_i + V_i+1) / 2] truncated; the output
    holds [rows * cols * 2] bytes. The colour conversion [cvt] is a
    service that keeps the size of the image; the pixel count is one
    whose byte offsets the [unsigned int] counter of line 54 holds. *)
Theorem convert_rgb_to_yuyv_packs (cvt : Mat -> Mat) (junk : nat -> Z) (fuel : nat)
        (input : Mat) :
  is_image 3 (cvt input) = true ->
  rows (cvt input) = rows input -> cols (cvt input) = cols input ->
  Z.even (total input) = true -> total input <= 2 ^ 31 ->
  total input / 2 < Z.of_nat fuel ->
  exists out,
    convert_rgb_to_yuyv cvt junk fuel input = Returned out
    /\ rows out = rows input /\ cols out = cols input /\ type out = CV_8UC2
    /\ Z.of_nat (length (data out)) = rows input * cols input * 2
    /\ forall i : nat, Z.of_nat i < total input -> Nat.even i = true ->
         exists y0 u0 v0 y1 u1 v1,
           (px 3 (cvt input) i 0 = Some y0 /\ px 3 (cvt input) i 1 = Some u0
            /\ px 3 (cvt input) i 2 = Some v0)
           /\ (px 3 (cvt input) (i + 1) 0 = Some y1 /\ px 3 (cvt input) (i + 1) 1 = Some u1
               /\ px 3 (cvt input) (i + 1) 2 = Some v1)
           /\ data out !! (2 * i)%nat = Some y0
           /\ data out !! (2 * i + 1)%nat = Some ((v0 + v1) ÷ 2)
           /\ data out !! (2 * i + 2)%nat = Some y1
           /\ data out !! (2 * i + 3)%nat = Some ((u0 + u1) ÷ 2).
Proof.
  intros Himg Hr Hc Heven Hsmall Hfuel.
  assert (Hnn : 0 <= total input).
  { apply is_image_spec in Himg as (_ & H1 & H2 & _). unfold total. rewrite <- Hr, <- Hc. nia. }
  pose proof (Zmod_even (total input)) as Hmod. rewrite Heven in Hmod. cbv iota in Hmod.
  pose proof (Z.div_mod (total input) 2 ltac:(lia)) as Hdm.
  assert (Hhalf : 0 <= total input / 2) by (apply Z.div_pos; lia).
  set (n := Z.to_nat (total input / 2)).
  assert (Htot : total input = Z.of_nat (2 * n)) by (subst n; lia).
  assert (Htot' : total (cvt input) = Z.of_nat (2 * n))
    by (unfold total in *; rewrite Hr, Hc; exact Htot).
  destruct (convert_unfold cvt junk fuel input (2 * n) Himg Htot' ltac:(lia))
    as (Hlen & Hlook & Hbyte & outdata & Holen & Hrun).
  destruct (yuyv_loop_even n fuel (plane 3 0 (data (cvt input)))
              (plane 3 1 (data (cvt input))) (plane 3 2 (data (cvt input))) outdata)
    as (outdata' & Hloop & Hlen' & Hpairs);
    try (apply Hlen; lia); try lia.
  rewrite Hrun, Hloop. run.
  eexists. split; [reflexivity|]. cbn [rows cols type data].
  repeat split; try assumption; try reflexivity.
  - unfold total in Htot. lia.
  - intros i Hi Hie.
    apply Nat.even_spec in Hie as [q ->].
    destruct (Hpairs q) as (y0 & y1 & u0 & u1 & v0 & v1 & (Y0 & Y1) & (U0 & U1) & (V0 & V1)
                            & O0 & O1 & O2 & O3); [lia|].
    rewrite Hlook in Y0, Y1, U0, U1, V0, V1 by lia.
    exists y0, u0, v0, y1, u1, v1.
    rewrite half_byte in O1, O3 by (eapply Hbyte; eassumption).
    replace (2 * (2 * q))%nat with (4 * q)%nat by lia. auto 12.
Qed.

Lemma convert_rgb_to_yuyv_packs_witness :
  exists out,
    convert_rgb_to_yuyv same_bytes zero_junk 2 sample_a = Returned out
    /\ rows out = 1 /\ cols out = 2 /\ type out = CV_8UC2
    /\ Z.of_nat (length (data out)) = 1 * 2 * 2
    /\ forall i : nat, Z.of_nat i < 2 -> Nat.even i = true ->
         exists y0 u0 v0 y1 u1 v1,
           (px 3 sample_a i 0 = Some y0 /\ px 3 sample_a i 1 = Some u0
            /\ px 3 sample_a i 2 = Some v0)
           /\ (px 3 sample_a (i + 1) 0 = Some y1 /\ px 3 sample_a (i + 1) 1 = Some u1
               /\ px 3 sample_a (i + 1) 2 = Some v1)
           /\ data out !! (2 * i)%nat = Some y0
           /\ data out !! (2 * i + 1)%nat = Some ((v0 + v1) ÷ 2)
           /\ data out !! (2 * i + 2)%nat = Some y1
           /\ data out !! (2 * i + 3)%nat = Some ((u0 + u1) ÷ 2).
Proof.
  apply (convert_rgb_to_yuyv_packs same_bytes zero_junk 2 sample_a).
  - reflexivity.
  - reflexivity.
  - reflexivity.
  - reflexivity.
  - vm_compute. discriminate.
  - vm_compute. reflexivity.
Defined.

(** C4, what the code does. On an image with an odd pixel count the
    converter rejects nothing: its last turn reads the chroma planes one
    byte past their end, which is undefined behaviour. *)
Theorem convert_rgb_to_yuyv_odd_undefined (cvt : Mat -> Mat) (junk : nat -> Z) (fuel : nat)
        (input : Mat) :
  is_image 3 (cvt input) = true ->
  rows (cvt input) = rows input -> cols (cvt input) = cols input ->
  Z.odd (total input) = true -> total input <= 2 ^ 31 ->
  total input / 2 < Z.of_nat fuel ->
  convert_rgb_to_yuyv cvt junk fuel input = Undefined.
Proof.
  intros Himg Hr Hc Hodd Hsmall Hfuel.
  assert (Hnn : 0 <= total input).
  { apply is_image_spec in Himg as (_ & H1 & H2 & _). unfold total. rewrite <- Hr, <- Hc. nia. }
  pose proof (Zmod_odd (total input)) as Hmod. rewrite Hodd in Hmod. cbv iota in Hmod.
  pose proof (Z.div_mod (total input) 2 ltac:(lia)) as Hdm.
  assert (Hhalf : 0 <= total input / 2) by (apply Z.div_pos; lia).
  set (n := Z.to_nat (total input / 2)).
  assert (Htot : total input = Z.of_nat (2 * n + 1)) by (subst n; lia).
  assert (Htot' : total (cvt input) = Z.of_nat (2 * n + 1))
    by (unfold total in *; rewrite Hr, Hc; exact Htot).
  destruct (convert_unfold cvt junk fuel input (2 * n + 1) Himg Htot' ltac:(lia))
    as (Hlen & _ & _ & outdata & Holen & Hrun).
  rewrite Hrun, (yuyv_loop_odd n fuel); try (apply Hlen; lia); try lia.
  reflexivity.
Qed.

Lemma convert_rgb_to_yuyv_odd_undefined_witness :
  convert_rgb_to_yuyv same_bytes zero_junk 1 one_pixel = Undefined.
Proof.
  apply (convert_rgb_to_yuyv_odd_undefined same_bytes zero_junk 1 one_pixel).
  - reflexivity.
  - reflexivity.
  - reflexivity.
  - reflexivity.
  - vm_compute. discriminate.
  - vm_compute. reflexivity.
Defined.

(** ** The FourCC Resolver *)

(** case analysis on the comparisons of a goal *)
Ltac zcases :=
  repeat match goal with
         | |- context [?a <=? ?b] => destruct (Z.leb_spec a b)
         | |- context [?a <? ?b] => destruct (Z.ltb_spec a b)
         | |- context [?a =? ?b] => destruct (Z.eqb_spec a b)
         end; cbn [andb orb negb].

Lemma char_code_byte (c : Ascii.ascii) : 0 <= char_code c <= 255.
Proof.
  unfold char_code. pose proof (Ascii.N_ascii_bounded c) as H. lia.
Qed.

Lemma toupper_byte (c : Z) : 0 <= c <= 255 -> 0 <= toupper c <= 255.
Proof. intros H. unfold toupper. zcases; lia. Qed.

Lemma land_255 (z : Z) : Z.land z 255 = z mod 2 ^ 8.
Proof. change 255 with (Z.ones 8). apply Z.land_ones. lia. Qed.

Lemma char_of_byte (x : Z) : 0 <= x <= 255 -> Z.land (s8 x) 255 = x.
Proof.
  intros H. rewrite land_255. unfold s8.
  change (2 ^ 8) with 256. change (2 ^ 7) with 128.
  destruct (Z.lt_ge_cases x 128).
  - rewrite (Z.mod_small (x + 128)) by lia.
    replace (x + 128 - 128) with x by lia. apply Z.mod_small. lia.
  - replace (x + 128) with (x - 128 + 1 * 256) by ring.
    rewrite Z.mod_add, (Z.mod_small (x - 128)) by lia.
    replace (x - 128 - 128) with (x + (-1) * 256) by ring.
    rewrite Z.mod_add by lia. apply Z.mod_small. lia.
Qed.

(** The tag constructor on four bytes passed as [char]s is the pack of
    the four bytes, first byte lowest. *)
Lemma fourcc_pack (x0 x1 x2 x3 : Z) :
  0 <= x0 <= 255 -> 0 <= x1 <= 255 -> 0 <= x2 <= 255 -> 0 <= x3 <= 255 ->
  fourcc (s8 x0) (s8 x1) (s8 x2) (s8 x3) = pack32 [x0; x1; x2; x3].
Proof.
  intros H0 H1 H2 H3. unfold fourcc, pack32.
  rewrite !char_of_byte by assumption.
  rewrite !Z.shiftl_mul_pow2 by lia. cbn [foldr]. f_equal. ring.
Qed.

(** Byte [i] of a pack of four bytes is the [i]-th of them: the bytes
    keep their order. *)
Lemma pack32_byte (x0 x1 x2 x3 : Z) (i : nat) (x : Z) :
  0 <= x0 <= 255 -> 0 <= x1 <= 255 -> 0 <= x2 <= 255 -> 0 <= x3 <= 255 ->
  [x0; x1; x2; x3] !! i = Some x ->
  Z.land (Z.shiftr (pack32 [x0; x1; x2; x3]) (8 * Z.of_nat i)) 255 = x.
Proof.
  intros H0 H1 H2 H3 Hi. unfold pack32, s32. cbn [foldr].
  rewrite land_255, Z.shiftr_div_pow2 by lia.
  set (v := x0 + 2 ^ 8 * (x1 + 2 ^ 8 * (x2 + 2 ^ 8 * (x3 + 2 ^ 8 * 0)))).
  assert (Hv : ((v + 2 ^ 31) mod 2 ^ 32 - 2 ^ 31) = v - 2 ^ 32 * (x3 / 128)).
  { destruct (Z.lt_ge_cases x3 128).
    - rewrite (Z.div_small x3) by lia. rewrite Z.mod_small by (subst v; lia). lia.
    - replace (x3 / 128) with 1
        by (apply Z.div_unique with (r := x3 - 128); lia).
      replace (v + 2 ^ 31) with (v - 2 ^ 31 + 1 * 2 ^ 32) by ring.
      rewrite Z.mod_add by lia. rewrite Z.mod_small by (subst v; lia). lia. }
  rewrite Hv. clear Hv.
  destruct i as [|[|[|[|i]]]]; cbn in Hi; inversion Hi; subst x; clear Hi.
  - change (2 ^ (8 * Z.of_nat 0)) with 1. rewrite Z.div_1_r.
    symmetry; apply Z.mod_unique with (q := x1 + 2 ^ 8 * (x2 + 2 ^ 8 * x3) - 2 ^ 24 * (x3 / 128));
      [lia | subst v; ring].
  - change (2 ^ (8 * Z.of_nat 1)) with (2 ^ 8).
    replace ((v - 2 ^ 32 * (x3 / 128)) / 2 ^ 8)
      with (x1 + 2 ^ 8 * (x2 + 2 ^ 8 * x3) - 2 ^ 24 * (x3 / 128))
      by (apply Z.div_unique with (r := x0); [lia | subst v; ring]).
    symmetry; apply Z.mod_unique with (q := x2 + 2 ^ 8 * x3 - 2 ^ 16 * (x3 / 128)); [lia | ring].
  - change (2 ^ (8 * Z.of_nat 2)) with (2 ^ 16).
    replace ((v - 2 ^ 32 * (x3 / 128)) / 2 ^ 16)
      with (x2 + 2 ^ 8 * x3 - 2 ^ 16 * (x3 / 128))
      by (apply Z.div_unique with (r := x0 + 2 ^ 8 * x1); [lia | subst v; ring]).
    symmetry; apply Z.mod_unique with (q := x3 - 2 ^ 8 * (x3 / 128)); [lia | ring].
  - change (2 ^ (8 * Z.of_nat 3)) with (2 ^ 24).
    replace ((v - 2 ^ 32 * (x3 / 128)) / 2 ^ 24)
      with (x3 - 2 ^ 8 * (x3 / 128))
      by (apply Z.div_unique with (r := x0 + 2 ^ 8 * (x1 + 2 ^ 8 * x2)); [lia | subst v; ring]).
    symmetry; apply Z.mod_unique with (q := - (x3 / 128)); [lia | ring].
Qed.

(** C5. On a string [s] whose length is not 8 the resolver returns 0
    when [s] is empty, the 32-bit pack of [s] upper-cased and padded on
    the right with spaces to four characters, bytes in their order, when
    [s] has one to four characters, and 0 on every other length. *)
Theorem fourCcFromString_by_length (s : string) :
  String.length s <> 8%nat ->
  fourCcFromString s
  = Returned (if (String.length s =? 0)%nat then 0
              else if (String.length s <=? 4)%nat then fourcc_of_tag s
              else 0).
Proof.
  intros Hlen.
  destruct s as [|c1 [|c2 [|c3 [|c4 [|c5 s]]]]];
    try (unfold fourCcFromString, fourcc_of_tag;
         cbn [String.length Z.of_nat Pos.of_succ_nat Pos.succ Z.eqb Z.leb Z.compare
              Pos.compare Pos.compare_cont upper_loop Nat.eqb Nat.leb bytes_of fmap list_fmap];
         unfold pad4; cbn; run;
         rewrite ?u8_small by (apply toupper_byte, char_code_byte);
         f_equal; apply fourcc_pack;
         first [apply toupper_byte, char_code_byte | lia]).
  unfold fourCcFromString.
  cbn [String.length] in *.
  set (k := String.length s) in *.
  replace (Z.of_nat (S (S (S (S (S k)))))) with (Z.of_nat k + 5) by lia.
  zcases; try lia; reflexivity.
Qed.

Lemma fourCcFromString_by_length_witness :
  fourCcFromString "mjpg" = Returned (fourcc_of_tag "mjpg").
Proof.
  apply (fourCcFromString_by_length "mjpg"). cbn. discriminate.
Defined.

Example fourCcFromString_MJPG : fourCcFromString "MJPG" = Returned 0x47504A4D.
Proof. reflexivity. Qed.

Example fourCcFromString_abcde : fourCcFromString "abcde" = Returned 0.
Proof. reflexivity. Qed.

(** ** The eight-character path of the FourCC Resolver *)

Lemma is_hex_digit (c : Z) : is_hex c = true -> exists d, hex_digit c = Some d /\ 0 <= d <= 15.
Proof.
  unfold is_hex. intros H. apply bool_decide_eq_true in H as [d Hd].
  exists d. split; [assumption|].
  unfold hex_digit in Hd. revert Hd. zcases; intros Hd; inversion Hd; lia.
Qed.

Lemma is_hex_not_space (c : Z) : is_hex c = true -> isspace c = false.
Proof.
  intros H. apply is_hex_digit in H as (d & Hd & _).
  unfold hex_digit in Hd. revert Hd. unfold isspace.
  zcases; intros Hd; try discriminate; try reflexivity; lia.
Qed.

Lemma is_hex_not_sign (c : Z) : is_hex c = true -> c <> 45 /\ c <> 43 /\ c <> 120 /\ c <> 88.
Proof.
  intros H. apply is_hex_digit in H as (d & Hd & _).
  unfold hex_digit in Hd. revert Hd.
  zcases; intros Hd; try discriminate; lia.
Qed.

(** On hex digits only, [hex_digits] reads them all. *)
Lemma hex_digits_all (s : string) :
  forall (acc : Z) (n : nat),
    all_chars is_hex s = true ->
    hex_digits s acc n
    = (foldl (fun a c => a * 16 + default 0 (hex_digit c)) acc (bytes_of s),
       (n + String.length s)%nat).
Proof.
  induction s as [|c s IH]; intros acc n Hall; cbn [hex_digits bytes_of foldl String.length].
  - f_equal. lia.
  - cbn [all_chars] in Hall. apply andb_true_iff in Hall as [Hc Hs].
    destruct (is_hex_digit _ Hc) as (d & Hd & _). rewrite Hd. change (default 0 (Some d)) with d.
    rewrite IH by assumption. f_equal. lia.
Qed.

Lemma hex_fold_bounds (l : list Z) :
  forall acc : Z,
    0 <= acc -> forallb is_hex l = true ->
    0 <= foldl (fun a c => a * 16 + default 0 (hex_digit c)) acc l
      < (acc + 1) * 16 ^ Z.of_nat (length l).
Proof.
  induction l as [|c l IH]; intros acc Hacc Hall; cbn [foldl length].
  - change (16 ^ Z.of_nat 0) with 1. lia.
  - cbn [forallb] in Hall. apply andb_true_iff in Hall as [Hc Hl].
    destruct (is_hex_digit _ Hc) as (d & Hd & Hd15). rewrite Hd. change (default 0 (Some d)) with d.
    specialize (IH (acc * 16 + d) ltac:(lia) Hl).
    rewrite Nat2Z.inj_succ, Z.pow_succ_r by lia.
    assert (Hp : 0 < 16 ^ Z.of_nat (length l)) by (apply Z.pow_pos_nonneg; lia).
    assert ((acc * 16 + d + 1) * 16 ^ Z.of_nat (length l)
            <= (acc + 1) * 16 * 16 ^ Z.of_nat (length l))
      by (apply Z.mul_le_mono_nonneg_r; lia).
    lia.
Qed.

Lemma all_chars_bytes (f : Z -> bool) (s : string) :
  all_chars f s = forallb f (bytes_of s).
Proof. induction s as [|c s IH]; cbn; [reflexivity | rewrite IH; reflexivity]. Qed.

Lemma bytes_of_length (s : string) : length (bytes_of s) = String.length s.
Proof. induction s as [|c s IH]; cbn; [reflexivity | rewrite IH; reflexivity]. Qed.

(** [strtol] on a string of hex digits: the digits, read as a number. *)
Lemma strtol16_hex (s : string) :
  s <> EmptyString -> all_chars is_hex s = true -> hex_value s <= LONG_MAX ->
  strtol16 s = Some (hex_value s, false) /\ 0 <= hex_value s < 16 ^ Z.of_nat (String.length s).
Proof.
  intros Hne Hall Hlong.
  assert (Hb : 0 <= hex_value s < 16 ^ Z.of_nat (String.length s)).
  { unfold hex_value. rewrite <- bytes_of_length.
    pose proof (hex_fold_bounds (bytes_of s) 0 ltac:(lia)) as H.
    rewrite <- all_chars_bytes in H. specialize (H Hall). lia. }
  split; [|exact Hb].
  destruct s as [|c s]; [congruence|].
  pose proof Hall as Hall'. cbn [all_chars] in Hall'.
  apply andb_true_iff in Hall' as [Hc Hs].
  pose proof (is_hex_not_space _ Hc) as Hsp.
  pose proof (is_hex_not_sign _ Hc) as (Hm & Hp & _ & _).
  unfold strtol16. cbn [skip_space]. rewrite Hsp.
  unfold skip_sign.
  replace (char_code c =? 45) with false by (symmetry; apply Z.eqb_neq; assumption).
  replace (char_code c =? 43) with false by (symmetry; apply Z.eqb_neq; assumption).
  assert (H0x : skip_0x (String c s) = String c s).
  { unfold skip_0x. destruct s as [|x [|d s]]; try reflexivity.
    cbn [all_chars] in Hs. apply andb_true_iff in Hs as [Hx _].
    pose proof (is_hex_not_sign _ Hx) as (_ & _ & Hx1 & Hx2).
    replace (char_code x =? 120) with false by (symmetry; apply Z.eqb_neq; assumption).
    replace (char_code x =? 88) with false by (symmetry; apply Z.eqb_neq; assumption).
    rewrite andb_false_r. reflexivity. }
  rewrite H0x, hex_digits_all by assumption.
  fold (hex_value (String c s)). cbn [String.length Nat.add].
  replace (hex_value (String c s) <? LONG_MIN) with false
    by (symmetry; apply Z.ltb_ge; unfold LONG_MIN; lia).
  replace (LONG_MAX <? hex_value (String c s)) with false
    by (symmetry; apply Z.ltb_ge; lia).
  reflexivity.
Qed.

(** When the first character can start no number, nothing is converted. *)
Lemma strtol16_no_start (c : Ascii.ascii) (s : string) :
  isspace (char_code c) = false -> char_code c <> 45 -> char_code c <> 43 ->
  is_hex (char_code c) = false ->
  strtol16 (String c s) = None.
Proof.
  intros Hsp Hm Hp Hh. unfold strtol16. cbn [skip_space]. rewrite Hsp.
  unfold skip_sign.
  replace (char_code c =? 45) with false by (symmetry; apply Z.eqb_neq; assumption).
  replace (char_code c =? 43) with false by (symmetry; apply Z.eqb_neq; assumption).
  assert (Hd : hex_digit (char_code c) = None).
  { unfold is_hex in Hh. apply bool_decide_eq_false in Hh.
    destruct (hex_digit (char_code c)); [exfalso; apply Hh; eauto | reflexivity]. }
  assert (H0x : skip_0x (String c s) = String c s).
  { unfold skip_0x. destruct s as [|x [|d s]]; try reflexivity.
    replace (char_code c =? 48) with false; [reflexivity|].
    symmetry. apply Z.eqb_neq. intros E. rewrite E in Hd. discriminate. }
  rewrite H0x. cbn [hex_digits]. rewrite Hd. reflexivity.
Qed.

(** X12. Eight hex digits beyond what an [int] holds end in
    [std::out_of_range]. *)
Lemma fourCcFromString_hex_overflow (s : string) :
  String.length s = 8%nat -> all_chars is_hex s = true -> INT_MAX < hex_value s ->
  fourCcFromString s = Threw out_of_range.
Proof.
  intros Hlen Hall Hint.
  assert (Hne : s <> EmptyString) by (intros ->; discriminate).
  assert (Hb : 0 <= hex_value s < 16 ^ Z.of_nat (String.length s)).
  { unfold hex_value. rewrite <- bytes_of_length.
    pose proof (hex_fold_bounds (bytes_of s) 0 ltac:(lia)) as H.
    rewrite <- all_chars_bytes in H. specialize (H Hall). lia. }
  rewrite Hlen in Hb. change (16 ^ Z.of_nat 8) with (2 ^ 32) in Hb.
  destruct (strtol16_hex s Hne Hall) as [Hs _]; [unfold LONG_MAX; lia|].
  unfold fourCcFromString. rewrite Hlen. cbn [Z.of_nat Pos.of_succ_nat Z.eqb Z.leb].
  change (stoi16 s = Threw out_of_range).
  unfold stoi16. rewrite Hs. cbn [orb].
  replace (INT_MAX <? hex_value s) with true by (symmetry; apply Z.ltb_lt; lia).
  rewrite orb_true_r. reflexivity.
Qed.

Example fourCcFromString_47504a4d : fourCcFromString "47504a4d" = Returned 0x47504A4D.
Proof. reflexivity. Qed.

(** C6, as the spec has it, fails: a string of eight characters that is
    no hex literal ends in the parser's own [std::invalid_argument]. *)
Lemma fourCcFromString_bad_hex_propagates :
  String.length "zzzzzzzz" = 8%nat
  /\ fourCcFromString "zzzzzzzz" = Threw invalid_argument
  /\ numeric_parse_error (fourCcFromString "zzzzzzzz").
Proof.
  split; [reflexivity|]. split; [reflexivity|]. left. reflexivity.
Qed.

(** ** The Resource Path Resolver *)

Lemma ifstream_missing (w : World) (path : string) (t : list event) :
  path ∉ readable w -> ifstream_good w path t = (t ++ [EvOpen path], Returned false).
Proof. intros H. unfold ifstream_good. rewrite bool_decide_eq_false_2 by assumption. reflexivity. Qed.

Lemma getenv_unset (w : World) (name : string) (t : list event) :
  environ w !! name = None -> getenv w name t = (t ++ [EvGetenv name], Returned None).
Proof. intros H. unfold getenv. rewrite H. reflexivity. Qed.

(** C7, as the code has it. For a name that holds a path separator, is
    no URI and cannot be opened for reading as it stands, the resolver
    answers "not found" at once: the one call it makes is the attempt to
    open the name itself; it reads no environment variable and tries no
    other place. *)
Theorem resolve_path_separator_stops (prefix : string) (w : World)
        (provided type : string) (t : list event) :
  contains 47 provided = true -> regex_match_uri provided = false ->
  provided ∉ readable w ->
  resolve_path prefix w provided type t = (t ++ [EvOpen provided], Returned None).
Proof.
  intros Hsep Huri Hmiss. unfold resolve_path.
  rewrite Huri. unfold mbind, io_bind.
  rewrite ifstream_missing by assumption. rewrite Hsep. reflexivity.
Qed.

Lemma resolve_path_separator_stops_witness :
  resolve_path "/usr/local" bare_world "models/foo.dat" "models" []
  = ([EvOpen "models/foo.dat"], Returned None).
Proof.
  apply (resolve_path_separator_stops "/usr/local" bare_world "models/foo.dat" "models" []).
  - reflexivity.
  - reflexivity.
  - vm_compute. discriminate.
Defined.

(** C8, what the code does. For a plain name found in no earlier place,
    with BACKSCRUB_PATH, XDG_DATA_HOME and HOME all unset, the
    resolver builds a [std::string] from the null pointer that
    [getenv("HOME")] returns: undefined behaviour, after these four
    calls and before any later place is tried. *)
Theorem resolve_path_no_home_undefined (prefix : string) (w : World)
        (provided type : string) (t : list event) :
  regex_match_uri provided = false -> provided ∉ readable w ->
  contains 47 provided = false ->
  environ w !! "BACKSCRUB_PATH" = None ->
  environ w !! "XDG_DATA_HOME" = None ->
  environ w !! "HOME" = None ->
  resolve_path prefix w provided type t
  = (t ++ [EvOpen provided; EvGetenv "BACKSCRUB_PATH"; EvGetenv "XDG_DATA_HOME";
           EvGetenv "HOME"],
     Undefined).
Proof.
  intros Huri Hmiss Hsep Hbsp Hxdg Hhome. unfold resolve_path, resolve_data_dirs.
  rewrite Huri. unfold mbind, io_bind.
  rewrite ifstream_missing by assumption. rewrite Hsep.
  repeat first [ rewrite getenv_unset by assumption
               | progress cbn [mret io_ret from_cstr io_undefined]
               | progress cbv beta iota ].
  rewrite <- !app_assoc. reflexivity.
Qed.

Lemma resolve_path_no_home_undefined_witness :
  resolve_path "/usr/local" bare_world "foo.dat" "models" []
  = ([EvOpen "foo.dat"; EvGetenv "BACKSCRUB_PATH"; EvGetenv "XDG_DATA_HOME";
      EvGetenv "HOME"],
     Undefined).
Proof.
  apply (resolve_path_no_home_undefined "/usr/local" bare_world "foo.dat" "models" []).
  - reflexivity.
  - vm_compute. discriminate.
  - reflexivity.
  - reflexivity.
  - reflexivity.
  - reflexivity.
Defined.

(** With HOME set the same search goes on to the later places. *)
Example resolve_path_with_home :
  resolve_path "/usr/local" (mkWorld {[ "HOME" := "/home/u" ]} ∅ None)
               "foo.dat" "models" []
  = ([EvOpen "foo.dat"; EvGetenv "BACKSCRUB_PATH"; EvGetenv "XDG_DATA_HOME";
      EvGetenv "HOME"; EvOpen "/home/u/.local/share/backscrub/models/foo.dat";
      EvOpen "/usr/local/share/backscrub/models/foo.dat"; EvReadlink "/proc/self/exe"],
     Returned None).
Proof. vm_compute. reflexivity. Qed.

(** C7, as the spec has it, fails: [opt/bs] holds a separator, is no
    URI and is no readable regular file, but it is a directory, which
    [std::ifstream] opens; the resolver returns the name. *)
Lemma resolve_path_directory_returned :
  contains 47 "opt/bs" = true /\ regex_match_uri "opt/bs" = false
  /\ ("opt/bs"%string ∉ (∅ : gset string))
  /\ readable dir_world = ifstream_opens ∅ {[ "opt/bs"%string ]}
  /\ resolve_path "/usr/local" dir_world "opt/bs" "models" []
     = ([EvOpen "opt/bs"], Returned (Some "opt/bs"%string)).
Proof.
  split; [reflexivity|]. split; [reflexivity|].
  split; [apply not_elem_of_empty|]. split; [reflexivity|].
  vm_compute. reflexivity.
Qed.

(** * Further properties *)

(** ** The Alpha Compositor, continued *)

Lemma is_image_intro (cn : Z) (m : Mat) :
  type m = CV_MAKETYPE CV_8U cn -> 0 <= rows m -> 0 <= cols m ->
  Z.of_nat (length (data m)) = rows m * cols m * cn ->
  (forall i x, data m !! i = Some x -> 0 <= x <= 255) ->
  is_image cn m = true.
Proof.
  intros Ht Hr Hc Hl Hb. unfold is_image.
  rewrite !andb_true_iff, Z.eqb_eq, !Z.leb_le, Z.eqb_eq.
  repeat split; try assumption.
  apply forallb_forall. intros x Hx.
  apply list_elem_of_In, list_elem_of_lookup_1 in Hx as [i Hi].
  apply is_byte_spec. eapply Hb. exact Hi.
Qed.

Lemma u8_byte (z : Z) : 0 <= u8 z <= 255.
Proof. unfold u8. pose proof (Z.mod_pos_bound z (2 ^ 8) ltac:(lia)). lia. Qed.

(** an index into three-channel data as a pixel and a channel *)
Lemma index_pixel_channel (i : nat) : i = ((i `div` 3) * 3 + i `mod` 3)%nat.
Proof. pose proof (Nat.div_mod_eq i 3). lia. Qed.

Lemma blend_quot_same (a w : Z) : (a * w + a * (255 - w)) ÷ 255 = a.
Proof. replace (a * w + a * (255 - w)) with (a * 255) by ring. apply Z.quot_mul. lia. Qed.

Lemma blend_quot_monotone (a b w1 w2 : Z) :
  0 <= b <= a -> 0 <= w1 <= w2 -> w2 <= 255 ->
  (a * w1 + b * (255 - w1)) ÷ 255 <= (a * w2 + b * (255 - w2)) ÷ 255.
Proof.
  intros Hab Hw H255.
  rewrite !Z.quot_div_nonneg by nia.
  apply Z.div_le_mono; [lia | nia].
Qed.

(** X1. The output of the compositor is a well-formed image again, of
    three 8-bit channels and of the size of the inputs. *)
Theorem alpha_blend_image (ndebug : bool) (a b mask : Mat) :
  blend_inputs a b mask -> rows a * cols a <= INT_MAX ->
  exists out, alpha_blend ndebug a b mask = Returned out /\ is_image 3 out = true
              /\ rows out = rows a /\ cols out = cols a.
Proof.
  intros Hin Hfit.
  destruct (alpha_blend_run ndebug a b mask Hin Hfit)
    as (out & Hrun & Hr & Hc & Ht & Hlen & Hpx).
  destruct Hin as (Ha & _). apply is_image_spec in Ha as (_ & Hra & Hca & _ & _).
  exists out. repeat split; try assumption.
  apply is_image_intro; try assumption; try lia.
  intros i x Hi.
  assert (Hlt : (i < length (data out))%nat) by (eapply lookup_lt_Some; exact Hi).
  destruct (Hpx (i `div` 3)%nat (i `mod` 3)%nat) as (av & bv & w & _ & _ & _ & _ & Ho).
  { pose proof (index_pixel_channel i). pose proof (Nat.mod_upper_bound i 3). lia. }
  { apply Nat.mod_upper_bound. lia. }
  unfold px in Ho. rewrite <- index_pixel_channel, Hi in Ho.
  inversion Ho. apply u8_byte.
Qed.

Lemma alpha_blend_image_witness :
  exists out, alpha_blend false sample_a sample_b sample_mask = Returned out
              /\ is_image 3 out = true /\ rows out = 1 /\ cols out = 2.
Proof.
  apply (alpha_blend_image false sample_a sample_b sample_mask).
  - vm_compute. tauto.
  - vm_compute. discriminate.
Defined.

(** X2. Blending an image with itself gives the image back, whatever the
    mask. *)
Theorem alpha_blend_same (ndebug : bool) (a mask : Mat) :
  blend_inputs a a mask -> rows a * cols a <= INT_MAX ->
  alpha_blend ndebug a a mask = Returned a.
Proof.
  intros Hin Hfit.
  destruct (alpha_blend_run ndebug a a mask Hin Hfit)
    as (out & Hrun & Hr & Hc & Ht & Hlen & Hpx).
  destruct Hin as (Ha & _). apply is_image_spec in Ha as (Hta & Hra & Hca & Hla & _).
  rewrite Hrun. f_equal.
  assert (Hdata : data out = data a).
  { apply list_eq. intros i.
    destruct (decide (i < length (data a))%nat) as [Hi|Hi].
    - destruct (Hpx (i `div` 3)%nat (i `mod` 3)%nat)
        as (av & bv & w & (Hav & _ & Hw) & Hpa & Hpb & _ & Ho).
      { pose proof (index_pixel_channel i). pose proof (Nat.mod_upper_bound i 3). lia. }
      { apply Nat.mod_upper_bound. lia. }
      unfold px in Hpa, Hpb, Ho. rewrite <- index_pixel_channel in Hpa, Hpb, Ho.
      rewrite Hpa in Hpb. inversion Hpb; subst bv.
      rewrite Ho, Hpa, blend_byte_exact, blend_quot_same by assumption. reflexivity.
    - rewrite !lookup_ge_None_2 by lia. reflexivity. }
  destruct out as [r c t d], a as [r' c' t' d']. cbn in *. subst.
  reflexivity.
Qed.

Lemma alpha_blend_same_witness :
  alpha_blend false sample_a sample_a sample_mask = Returned sample_a.
Proof.
  apply (alpha_blend_same false sample_a sample_mask).
  - vm_compute. tauto.
  - vm_compute. discriminate.
Defined.

(** X3. A heavier mask moves every output byte toward [a]: under two masks
    with [w1 <= w2] at a pixel, the byte under the second lies on the
    side of [a]'s byte from the byte under the first. *)
Theorem alpha_blend_monotone (ndebug : bool) (a b mask1 mask2 : Mat) :
  blend_inputs a b mask1 -> blend_inputs a b mask2 -> rows a * cols a <= INT_MAX ->
  exists out1 out2,
    alpha_blend ndebug a b mask1 = Returned out1
    /\ alpha_blend ndebug a b mask2 = Returned out2
    /\ forall p c : nat, Z.of_nat p < rows a * cols a -> (c < 3)%nat ->
         exists av bv w1 w2 o1 o2,
           px 3 a p c = Some av /\ px 3 b p c = Some bv
           /\ px 1 mask1 p 0 = Some w1 /\ px 1 mask2 p 0 = Some w2
           /\ px 3 out1 p c = Some o1 /\ px 3 out2 p c = Some o2
           /\ (w1 <= w2 -> bv <= av -> o1 <= o2)
           /\ (w1 <= w2 -> av <= bv -> o2 <= o1).
Proof.
  intros Hin1 Hin2 Hfit.
  destruct (alpha_blend_run ndebug a b mask1 Hin1 Hfit) as (out1 & Hrun1 & _ & _ & _ & _ & Hpx1).
  destruct (alpha_blend_run ndebug a b mask2 Hin2 Hfit) as (out2 & Hrun2 & _ & _ & _ & _ & Hpx2).
  exists out1, out2. split; [assumption|]. split; [assumption|].
  intros p c Hp Hc.
  destruct (Hpx1 p c Hp Hc) as (av & bv & w1 & (Hav & Hbv & Hw1) & A1 & B1 & M1 & O1).
  destruct (Hpx2 p c Hp Hc) as (av' & bv' & w2 & (_ & _ & Hw2) & A2 & B2 & M2 & O2).
  rewrite A1 in A2. inversion A2; subst av'. rewrite B1 in B2. inversion B2; subst bv'.
  rewrite blend_byte_exact in O1, O2 by assumption.
  exists av, bv, w1, w2, ((av * w1 + bv * (255 - w1)) ÷ 255), ((av * w2 + bv * (255 - w2)) ÷ 255).
  repeat split; try assumption.
  - intros Hw Hba. apply blend_quot_monotone; lia.
  - intros Hw Hab.
    replace (av * w2 + bv * (255 - w2)) with (bv * (255 - w2) + av * (255 - (255 - w2))) by ring.
    replace (av * w1 + bv * (255 - w1)) with (bv * (255 - w1) + av * (255 - (255 - w1))) by ring.
    apply blend_quot_monotone; lia.
Qed.

Lemma alpha_blend_monotone_witness :
  exists out1 out2,
    alpha_blend false sample_a sample_b light_mask = Returned out1
    /\ alpha_blend false sample_a sample_b sample_mask = Returned out2
    /\ forall p c : nat, Z.of_nat p < 1 * 2 -> (c < 3)%nat ->
         exists av bv w1 w2 o1 o2,
           px 3 sample_a p c = Some av /\ px 3 sample_b p c = Some bv
           /\ px 1 light_mask p 0 = Some w1 /\ px 1 sample_mask p 0 = Some w2
           /\ px 3 out1 p c = Some o1 /\ px 3 out2 p c = Some o2
           /\ (w1 <= w2 -> bv <= av -> o1 <= o2)
           /\ (w1 <= w2 -> av <= bv -> o2 <= o1).
Proof.
  apply (alpha_blend_monotone false sample_a sample_b light_mask sample_mask).
  - vm_compute. tauto.
  - vm_compute. tauto.
  - vm_compute. discriminate.
Defined.

(** The loop leaves its buffers as soon as the mask is shorter than the
    pixel count. *)
Lemma blend_loop_short_mask (n : nat) :
  forall aptr bptr mptr optr : list Z,
    (length mptr < n)%nat -> blend_loop n aptr bptr mptr optr = Undefined.
Proof.
  induction n as [|n IH]; intros aptr bptr mptr optr Hm; [lia|].
  destruct mptr as [|w mptr]; [reflexivity|]. cbn [length] in Hm.
  destruct aptr as [|a0 [|a1 [|a2 aptr]]], bptr as [|b0 [|b1 [|b2 bptr]]];
    try reflexivity;
    destruct optr as [|z0 [|z1 [|z2 optr]]]; try reflexivity.
  cbn [blend_loop load store mbind outcome_bind obind].
  rewrite IH by lia. reflexivity.
Qed.

(** X4. Built without its assertions, the compositor runs into undefined
    behaviour on a mask with fewer bytes than the images have pixels. *)
Theorem alpha_blend_release_short_mask (a b mask : Mat) :
  0 <= rows a * cols a <= INT_MAX ->
  Z.of_nat (length (data mask)) < rows a * cols a ->
  alpha_blend true a b mask = Undefined.
Proof.
  intros Hfit Hshort. unfold alpha_blend, assert. run.
  rewrite int_mul_fits by lia. run.
  rewrite size_t_small by lia.
  rewrite blend_loop_short_mask by lia. reflexivity.
Qed.

Lemma alpha_blend_release_short_mask_witness :
  alpha_blend true sample_a sample_b small_mask = Undefined.
Proof.
  apply (alpha_blend_release_short_mask sample_a sample_b small_mask).
  - vm_compute. split; discriminate.
  - vm_compute. reflexivity.
Defined.

Lemma alpha_blend_overflow_witness :
  alpha_blend false (huge_header CV_8UC3) (huge_header CV_8UC3) (huge_header CV_8UC1)
  = Undefined.
Proof.
  apply (alpha_blend_overflow false (huge_header CV_8UC3) (huge_header CV_8UC3)
           (huge_header CV_8UC1)).
  - unfold blend_precondition. cbn. tauto.
  - vm_compute. reflexivity.
Defined.

(** ** The Pixel Format Converter, continued *)

(** an index into the packed output as a pair and a place in the pair *)
Lemma index_pair_place (i : nat) : i = (4 * (i `div` 4) + i `mod` 4)%nat.
Proof. pose proof (Nat.div_mod_eq i 4). lia. Qed.

(** The converter on a converted image of [n] pairs of pixels. *)
Lemma convert_even_run (cvt : Mat -> Mat) (junk : nat -> Z) (fuel : nat) (input : Mat)
      (n : nat) :
  is_image 3 (cvt input) = true -> total (cvt input) = Z.of_nat (2 * n) ->
  Z.of_nat (2 * n) <= 2 ^ 31 -> (n < fuel)%nat ->
  exists out,
    convert_rgb_to_yuyv cvt junk fuel input = Returned out
    /\ rows out = rows (cvt input) /\ cols out = cols (cvt input) /\ type out = CV_8UC2
    /\ length (data out) = (4 * n)%nat
    /\ forall q : nat, (q < n)%nat ->
         exists y0 y1 u0 u1 v0 v1,
           (0 <= y0 <= 255 /\ 0 <= y1 <= 255 /\ 0 <= u0 <= 255 /\ 0 <= u1 <= 255
            /\ 0 <= v0 <= 255 /\ 0 <= v1 <= 255)
           /\ (px 3 (cvt input) (2 * q) 0 = Some y0 /\ px 3 (cvt input) (2 * q + 1) 0 = Some y1)
           /\ (px 3 (cvt input) (2 * q) 1 = Some u0 /\ px 3 (cvt input) (2 * q + 1) 1 = Some u1)
           /\ (px 3 (cvt input) (2 * q) 2 = Some v0 /\ px 3 (cvt input) (2 * q + 1) 2 = Some v1)
           /\ data out !! (4 * q)%nat = Some y0
           /\ data out !! (4 * q + 1)%nat = Some ((v0 + v1) ÷ 2)
           /\ data out !! (4 * q + 2)%nat = Some y1
           /\ data out !! (4 * q + 3)%nat = Some ((u0 + u1) ÷ 2).
Proof.
  intros Himg Htot Hsmall Hfuel.
  destruct (convert_unfold cvt junk fuel input (2 * n) Himg Htot Hsmall)
    as (Hlen & Hlook & Hbyte & outdata & Holen & Hrun).
  destruct (yuyv_loop_even n fuel (plane 3 0 (data (cvt input)))
              (plane 3 1 (data (cvt input))) (plane 3 2 (data (cvt input))) outdata)
    as (outdata' & Hloop & Hlen' & Hpairs);
    try (apply Hlen; lia); try lia.
  rewrite Hrun, Hloop. run.
  eexists. split; [reflexivity|]. cbn [rows cols type data].
  repeat split; try assumption; try reflexivity.
  intros q Hq.
  destruct (Hpairs q Hq) as (y0 & y1 & u0 & u1 & v0 & v1 & (Y0 & Y1) & (U0 & U1) & (V0 & V1)
                             & O0 & O1 & O2 & O3).
  rewrite Hlook in Y0, Y1, U0, U1, V0, V1 by lia.
  exists y0, y1, u0, u1, v0, v1.
  rewrite half_byte in O1, O3 by (eapply Hbyte; eassumption).
  repeat split; try assumption; eapply Hbyte; eassumption.
Qed.

(** an even pixel count as a number of pairs *)
Lemma even_pairs (m : Mat) :
  is_image 3 m = true -> Z.even (total m) = true ->
  total m = Z.of_nat (2 * Z.to_nat (total m / 2)) /\ 0 <= total m / 2.
Proof.
  intros Himg Heven.
  assert (Hnn : 0 <= total m).
  { apply is_image_spec in Himg as (_ & H1 & H2 & _). unfold total. nia. }
  pose proof (Zmod_even (total m)) as Hmod. rewrite Heven in Hmod. cbv iota in Hmod.
  pose proof (Z.div_mod (total m) 2 ltac:(lia)) as Hdm.
  assert (Hhalf : 0 <= total m / 2) by (apply Z.div_pos; lia).
  split; lia.
Qed.

(** X6. No byte of the freshly allocated buffer survives in the output:
    on an even pixel count the result is the same whatever the buffer
    held before. *)
Theorem convert_rgb_to_yuyv_overwrites (cvt : Mat -> Mat) (junk1 junk2 : nat -> Z)
        (fuel : nat) (input : Mat) :
  is_image 3 (cvt input) = true -> Z.even (total (cvt input)) = true ->
  total (cvt input) <= 2 ^ 31 -> total (cvt input) / 2 < Z.of_nat fuel ->
  convert_rgb_to_yuyv cvt junk1 fuel input = convert_rgb_to_yuyv cvt junk2 fuel input.
Proof.
  intros Himg Heven Hsmall Hfuel.
  destruct (even_pairs _ Himg Heven) as [Htot Hhalf].
  set (n := Z.to_nat (total (cvt input) / 2)) in *.
  destruct (convert_even_run cvt junk1 fuel input n Himg Htot ltac:(lia) ltac:(lia))
    as (out1 & Hrun1 & Hr1 & Hc1 & Ht1 & Hl1 & Hp1).
  destruct (convert_even_run cvt junk2 fuel input n Himg Htot ltac:(lia) ltac:(lia))
    as (out2 & Hrun2 & Hr2 & Hc2 & Ht2 & Hl2 & Hp2).
  rewrite Hrun1, Hrun2. f_equal.
  assert (Hdata : data out1 = data out2).
  { apply list_eq. intros i.
    destruct (decide (i < 4 * n)%nat) as [Hi|Hi];
      [|rewrite !lookup_ge_None_2 by lia; reflexivity].
    pose proof (index_pair_place i) as Hidx.
    pose proof (Nat.mod_upper_bound i 4 ltac:(lia)) as Hplace.
    destruct (Hp1 (i `div` 4)%nat ltac:(lia))
      as (y0 & y1 & u0 & u1 & v0 & v1 & _ & (Y0 & Y1) & (U0 & U1) & (V0 & V1)
          & A0 & A1 & A2 & A3).
    destruct (Hp2 (i `div` 4)%nat ltac:(lia))
      as (y0' & y1' & u0' & u1' & v0' & v1' & _ & (Y0' & Y1') & (U0' & U1') & (V0' & V1')
          & B0 & B1 & B2 & B3).
    assert (y0' = y0) by congruence. assert (y1' = y1) by congruence.
    assert (u0' = u0) by congruence. assert (u1' = u1) by congruence.
    assert (v0' = v0) by congruence. assert (v1' = v1) by congruence. subst.
    rewrite Hidx.
    destruct (i `mod` 4)%nat as [|[|[|[|r]]]]; try lia;
      rewrite ?Nat.add_0_r; congruence. }
  destruct out1 as [r1 c1 t1 d1], out2 as [r2 c2 t2 d2]. cbn in *. congruence.
Qed.

Lemma convert_rgb_to_yuyv_overwrites_witness :
  convert_rgb_to_yuyv same_bytes zero_junk 2 sample_a
  = convert_rgb_to_yuyv same_bytes ones_junk 2 sample_a.
Proof.
  apply (convert_rgb_to_yuyv_overwrites same_bytes zero_junk ones_junk 2 sample_a).
  - reflexivity.
  - reflexivity.
  - vm_compute. discriminate.
  - vm_compute. reflexivity.
Defined.

(** X7. The output of the converter is a well-formed image of two 8-bit
    channels, of the size of the colour-converted image. *)
Theorem convert_rgb_to_yuyv_image (cvt : Mat -> Mat) (junk : nat -> Z) (fuel : nat)
        (input : Mat) :
  is_image 3 (cvt input) = true -> Z.even (total (cvt input)) = true ->
  total (cvt input) <= 2 ^ 31 -> total (cvt input) / 2 < Z.of_nat fuel ->
  exists out,
    convert_rgb_to_yuyv cvt junk fuel input = Returned out /\ is_image 2 out = true
    /\ rows out = rows (cvt input) /\ cols out = cols (cvt input).
Proof.
  intros Himg Heven Hsmall Hfuel.
  destruct (even_pairs _ Himg Heven) as [Htot Hhalf].
  set (n := Z.to_nat (total (cvt input) / 2)) in *.
  destruct (convert_even_run cvt junk fuel input n Himg Htot ltac:(lia) ltac:(lia))
    as (out & Hrun & Hr & Hc & Ht & Hl & Hp).
  apply is_image_spec in Himg as (_ & Hrows & Hcols & _ & _).
  exists out. repeat split; try assumption.
  apply is_image_intro; try assumption; try lia.
  - rewrite Hr, Hc. unfold total in Htot. lia.
  - intros i x Hi.
    assert (Hlt : (i < 4 * n)%nat) by (rewrite <- Hl; eapply lookup_lt_Some; exact Hi).
    pose proof (index_pair_place i) as Hidx.
    pose proof (Nat.mod_upper_bound i 4 ltac:(lia)) as Hplace.
    destruct (Hp (i `div` 4)%nat ltac:(lia))
      as (y0 & y1 & u0 & u1 & v0 & v1 & (By0 & By1 & Bu0 & Bu1 & Bv0 & Bv1) & _ & _ & _
          & A0 & A1 & A2 & A3).
    rewrite Hidx in Hi.
    destruct (i `mod` 4)%nat as [|[|[|[|r]]]]; try lia;
      rewrite ?Nat.add_0_r in Hi; rewrite Hi in *;
      match goal with H : Some _ = Some _ |- _ => inversion H; subst x end;
      try assumption;
      rewrite Z.quot_div_nonneg by lia;
      (split; [apply Z.div_pos; lia | apply Z.div_le_upper_bound; lia]).
Qed.

Lemma convert_rgb_to_yuyv_image_witness :
  exists out,
    convert_rgb_to_yuyv same_bytes zero_junk 2 sample_a = Returned out /\ is_image 2 out = true
    /\ rows out = 1 /\ cols out = 2.
Proof.
  apply (convert_rgb_to_yuyv_image same_bytes zero_junk 2 sample_a).
  - reflexivity.
  - reflexivity.
  - vm_compute. discriminate.
  - vm_compute. reflexivity.
Defined.

(** X8. On an image of one colour the averages are exact: every pair of
    pixels of converted colour [(y, u, v)] becomes the four bytes
    [y, v, y, u]. *)
Theorem convert_rgb_to_yuyv_solid (cvt : Mat -> Mat) (junk : nat -> Z) (fuel : nat)
        (input : Mat) (y u v : Z) :
  is_image 3 (cvt input) = true -> Z.even (total (cvt input)) = true ->
  total (cvt input) <= 2 ^ 31 -> total (cvt input) / 2 < Z.of_nat fuel ->
  (forall p : nat, Z.of_nat p < total (cvt input) ->
     px 3 (cvt input) p 0 = Some y /\ px 3 (cvt input) p 1 = Some u
     /\ px 3 (cvt input) p 2 = Some v) ->
  exists out,
    convert_rgb_to_yuyv cvt junk fuel input = Returned out
    /\ forall q : nat, Z.of_nat (2 * q) < total (cvt input) ->
         data out !! (4 * q)%nat = Some y /\ data out !! (4 * q + 1)%nat = Some v
         /\ data out !! (4 * q + 2)%nat = Some y /\ data out !! (4 * q + 3)%nat = Some u.
Proof.
  intros Himg Heven Hsmall Hfuel Hsolid.
  destruct (even_pairs _ Himg Heven) as [Htot Hhalf].
  set (n := Z.to_nat (total (cvt input) / 2)) in *.
  destruct (convert_even_run cvt junk fuel input n Himg Htot ltac:(lia) ltac:(lia))
    as (out & Hrun & Hr & Hc & Ht & Hl & Hp).
  exists out. split; [assumption|].
  intros q Hq.
  destruct (Hp q ltac:(lia))
    as (y0 & y1 & u0 & u1 & v0 & v1 & _ & (Y0 & Y1) & (U0 & U1) & (V0 & V1)
        & A0 & A1 & A2 & A3).
  destruct (Hsolid (2 * q)%nat ltac:(lia)) as (S0 & S1 & S2).
  destruct (Hsolid (2 * q + 1)%nat ltac:(lia)) as (T0 & T1 & T2).
  assert (y0 = y) by congruence. assert (y1 = y) by congruence.
  assert (u0 = u) by congruence. assert (u1 = u) by congruence.
  assert (v0 = v) by congruence. assert (v1 = v) by congruence. subst.
  replace ((v + v) ÷ 2) with v in A1
    by (replace (v + v) with (v * 2) by ring; symmetry; apply Z.quot_mul; lia).
  replace ((u + u) ÷ 2) with u in A3
    by (replace (u + u) with (u * 2) by ring; symmetry; apply Z.quot_mul; lia).
  auto.
Qed.

Lemma convert_rgb_to_yuyv_solid_witness :
  exists out,
    convert_rgb_to_yuyv same_bytes zero_junk 2 solid_pair = Returned out
    /\ forall q : nat, Z.of_nat (2 * q) < 1 * 2 ->
         data out !! (4 * q)%nat = Some 90 /\ data out !! (4 * q + 1)%nat = Some 201
         /\ data out !! (4 * q + 2)%nat = Some 90 /\ data out !! (4 * q + 3)%nat = Some 54.
Proof.
  apply (convert_rgb_to_yuyv_solid same_bytes zero_junk 2 solid_pair 90 54 201).
  - reflexivity.
  - reflexivity.
  - vm_compute. discriminate.
  - vm_compute. reflexivity.
  - intros p Hp. change (total (same_bytes solid_pair)) with 2 in Hp.
    destruct p as [|[|p]]; [repeat split; reflexivity | repeat split; reflexivity | lia].
Defined.

(** ** The FourCC Resolver, continued *)

(** The resolver on a tag of one to four characters. *)
Lemma fourCcFromString_tag (s : string) :
  (1 <= String.length s <= 4)%nat ->
  fourCcFromString s = Returned (fourcc_of_tag s)
  /\ exists x0 x1 x2 x3,
       pad4 (toupper <$> bytes_of s) = [x0; x1; x2; x3]
       /\ 0 <= x0 <= 255 /\ 0 <= x1 <= 255 /\ 0 <= x2 <= 255 /\ 0 <= x3 <= 255.
Proof.
  intros Hlen.
  destruct s as [|c1 [|c2 [|c3 [|c4 [|c5 s]]]]]; cbn [String.length] in Hlen; try lia.
  all: split;
    [ unfold fourCcFromString, fourcc_of_tag;
      cbn [String.length Z.of_nat Pos.of_succ_nat Pos.succ Z.eqb Z.leb Z.compare
           Pos.compare Pos.compare_cont upper_loop bytes_of fmap list_fmap];
      unfold pad4; cbn; run;
      rewrite ?u8_small by (apply toupper_byte, char_code_byte);
      f_equal; apply fourcc_pack;
      first [apply toupper_byte, char_code_byte | lia]
    | unfold pad4; cbn; do 4 eexists; split; [reflexivity|];
      repeat split; first [apply toupper_byte, char_code_byte | lia] ].
Qed.

(** X10. The code of a tag of one to four characters can be read back: byte
    [i] of the code, counted from the lowest, is character [i] of the
    tag in upper case, or a space past the end of the tag. *)
Theorem fourCcFromString_bytes (s : string) :
  (1 <= String.length s <= 4)%nat ->
  exists v,
    fourCcFromString s = Returned v
    /\ forall (i : nat) (x : Z),
         pad4 (toupper <$> bytes_of s) !! i = Some x ->
         Z.land (Z.shiftr v (8 * Z.of_nat i)) 255 = x.
Proof.
  intros Hlen.
  destruct (fourCcFromString_tag s Hlen)
    as (Hrun & x0 & x1 & x2 & x3 & Hpad & H0 & H1 & H2 & H3).
  exists (fourcc_of_tag s). split; [assumption|].
  intros i x Hi. unfold fourcc_of_tag. rewrite Hpad in *.
  apply pack32_byte; assumption.
Qed.

Lemma fourCcFromString_bytes_witness :
  exists v,
    fourCcFromString "yv" = Returned v
    /\ forall (i : nat) (x : Z),
         pad4 (toupper <$> bytes_of "yv") !! i = Some x ->
         Z.land (Z.shiftr v (8 * Z.of_nat i)) 255 = x.
Proof.
  apply (fourCcFromString_bytes "yv"). cbn. lia.
Defined.

(** *** Letter case *)

Lemma char_code_of_code (z : Z) : 0 <= z <= 255 -> char_code (ascii_of_code z) = z.
Proof.
  intros H. unfold char_code, ascii_of_code.
  rewrite Ascii.N_ascii_embedding by lia. lia.
Qed.

Lemma upper_char (c : Ascii.ascii) :
  char_code (ascii_of_code (toupper (char_code c))) = toupper (char_code c).
Proof. apply char_code_of_code, toupper_byte, char_code_byte. Qed.

Lemma toupper_cases (x : Z) :
  (97 <= x <= 122 /\ toupper x = x - 32) \/ (~ (97 <= x <= 122) /\ toupper x = x).
Proof. unfold toupper. zcases; first [left; split; lia | right; split; lia]. Qed.

Lemma toupper_twice (x : Z) : toupper (toupper x) = toupper x.
Proof.
  destruct (toupper_cases x) as [[Hr ->]|[Hr ->]]; unfold toupper; zcases; lia.
Qed.

Lemma toupper_space (x : Z) : isspace (toupper x) = isspace x.
Proof.
  destruct (toupper_cases x) as [[Hr ->]|[Hr ->]]; [|reflexivity].
  unfold isspace. zcases; try reflexivity; lia.
Qed.

Lemma toupper_hex (x : Z) : hex_digit (toupper x) = hex_digit x.
Proof.
  destruct (toupper_cases x) as [[Hr ->]|[Hr ->]]; [|reflexivity].
  unfold hex_digit. zcases; try reflexivity; try lia; f_equal; lia.
Qed.

Lemma toupper_is (x k : Z) : ~ (97 <= k <= 122) -> ~ (65 <= k <= 90) ->
  (toupper x =? k) = (x =? k).
Proof.
  intros H1 H2.
  destruct (toupper_cases x) as [[Hr ->]|[Hr ->]]; [|reflexivity].
  zcases; try reflexivity; lia.
Qed.

Lemma toupper_is_x (x : Z) :
  (toupper x =? 120) || (toupper x =? 88) = (x =? 120) || (x =? 88).
Proof.
  destruct (toupper_cases x) as [[Hr ->]|[Hr ->]]; [|reflexivity].
  zcases; try reflexivity; lia.
Qed.

Lemma upper_string_length (s : string) : String.length (upper_string s) = String.length s.
Proof. induction s as [|c s IH]; cbn; [reflexivity | rewrite IH; reflexivity]. Qed.

Lemma upper_loop_upper (s : string) :
  forall (i : nat) (a : list Z), upper_loop i (upper_string s) a = upper_loop i s a.
Proof.
  induction s as [|c s IH]; intros i a; cbn [upper_loop upper_string]; [reflexivity|].
  rewrite upper_char, toupper_twice. apply IH.
Qed.

Lemma skip_space_upper (s : string) : skip_space (upper_string s) = upper_string (skip_space s).
Proof.
  induction s as [|c s IH]; cbn [skip_space upper_string]; [reflexivity|].
  rewrite upper_char, toupper_space.
  destruct (isspace (char_code c)); [exact IH | reflexivity].
Qed.

Lemma skip_sign_upper (s : string) :
  skip_sign (upper_string s) = (fst (skip_sign s), upper_string (snd (skip_sign s))).
Proof.
  destruct s as [|c s]; cbn [skip_sign upper_string]; [reflexivity|].
  rewrite upper_char, !toupper_is by lia.
  destruct (char_code c =? 45); [reflexivity|].
  destruct (char_code c =? 43); reflexivity.
Qed.

Lemma skip_0x_upper (s : string) : skip_0x (upper_string s) = upper_string (skip_0x s).
Proof.
  destruct s as [|z [|x [|d s]]]; try reflexivity.
  cbn [skip_0x upper_string].
  rewrite !upper_char, toupper_is, toupper_is_x, toupper_hex by lia.
  destruct ((char_code z =? 48) && ((char_code x =? 120) || (char_code x =? 88))
            && bool_decide (is_Some (hex_digit (char_code d)))); reflexivity.
Qed.

Lemma hex_digits_upper (s : string) :
  forall (acc : Z) (n : nat), hex_digits (upper_string s) acc n = hex_digits s acc n.
Proof.
  induction s as [|c s IH]; intros acc n; cbn [hex_digits upper_string]; [reflexivity|].
  rewrite upper_char, toupper_hex.
  destruct (hex_digit (char_code c)); [apply IH | reflexivity].
Qed.

Lemma strtol16_upper (s : string) : strtol16 (upper_string s) = strtol16 s.
Proof.
  unfold strtol16. rewrite skip_space_upper, skip_sign_upper.
  destruct (skip_sign (skip_space s)) as [neg s2]. cbn [fst snd].
  rewrite skip_0x_upper, hex_digits_upper. reflexivity.
Qed.

(** X11. The resolver does not tell letter case: a string and its upper-case
    form have the same outcome, on the tag path as on the hex path. *)
Theorem fourCcFromString_case (s : string) :
  fourCcFromString (upper_string s) = fourCcFromString s.
Proof.
  unfold fourCcFromString, stoi16.
  rewrite upper_string_length, upper_loop_upper, strtol16_upper. reflexivity.
Qed.

(** *** The hex path *)

Lemma fourCcFromString_hex_overflow_witness :
  fourCcFromString "ffffffff" = Threw out_of_range.
Proof.
  apply (fourCcFromString_hex_overflow "ffffffff").
  - reflexivity.
  - reflexivity.
  - vm_compute. reflexivity.
Defined.

Lemma append_length (s1 s2 : string) :
  String.length (s1 +:+ s2) = (String.length s1 + String.length s2)%nat.
Proof. induction s1 as [|c s1 IH]; simpl; [reflexivity | f_equal; exact IH]. Qed.

Lemma hex_value_bounds (d : string) :
  all_chars is_hex d = true -> 0 <= hex_value d < 16 ^ Z.of_nat (String.length d).
Proof.
  intros Hall. unfold hex_value. rewrite <- bytes_of_length.
  pose proof (hex_fold_bounds (bytes_of d) 0 ltac:(lia)) as H.
  rewrite <- all_chars_bytes in H. specialize (H Hall). lia.
Qed.

Lemma is_hex_none (c : Z) : is_hex c = false -> hex_digit c = None.
Proof.
  unfold is_hex. intros H. apply bool_decide_eq_false in H.
  destruct (hex_digit c); [exfalso; apply H; eauto | reflexivity].
Qed.

(** [hex_digits] stops at the first character that is no hex digit. *)
Lemma hex_digits_stop (d : string) (c : Ascii.ascii) (g : string) :
  forall (acc : Z) (n : nat),
    all_chars is_hex d = true -> is_hex (char_code c) = false ->
    hex_digits (d +:+ String c g) acc n
    = (foldl (fun a x => a * 16 + default 0 (hex_digit x)) acc (bytes_of d),
       (n + String.length d)%nat).
Proof.
  induction d as [|c1 d IH]; intros acc n Hall Hc.
  - change (EmptyString +:+ String c g) with (String c g).
    cbn [hex_digits bytes_of foldl String.length].
    rewrite (is_hex_none _ Hc). f_equal. lia.
  - change (String c1 d +:+ String c g) with (String c1 (d +:+ String c g)).
    cbn [hex_digits bytes_of foldl String.length].
    cbn [all_chars] in Hall. apply andb_true_iff in Hall as [H1 Hd].
    destruct (is_hex_digit _ H1) as (v & Hv & _). rewrite Hv.
    change (default 0 (Some v)) with v.
    rewrite IH by assumption. f_equal. lia.
Qed.

(** X13. On the hex path the resolver reads the hex digits at the front and
    ignores what follows them: eight characters that start with hex
    digits and go on with another character (not the [x] of a [0x]
    prefix) give the value of the digits, with no error. *)
Theorem fourCcFromString_hex_prefix (d : string) (c : Ascii.ascii) (g : string) :
  String.length (d +:+ String c g) = 8%nat -> d <> EmptyString ->
  all_chars is_hex d = true -> is_hex (char_code c) = false ->
  char_code c <> 120 -> char_code c <> 88 ->
  fourCcFromString (d +:+ String c g) = Returned (hex_value d).
Proof.
  intros Hlen Hne Hall Hc Hx HX.
  pose proof (hex_value_bounds d Hall) as Hb.
  assert (Hd7 : (String.length d <= 7)%nat)
    by (rewrite append_length in Hlen; cbn [String.length] in Hlen; lia).
  assert (Hpow : 16 ^ Z.of_nat (String.length d) <= 16 ^ 7)
    by (apply Z.pow_le_mono_r; lia).
  change (16 ^ 7) with 268435456 in Hpow.
  unfold fourCcFromString. rewrite Hlen.
  cbn [Z.of_nat Pos.of_succ_nat Pos.succ Z.eqb Z.leb Z.compare Pos.compare Pos.compare_cont].
  unfold stoi16, strtol16.
  destruct d as [|c1 d]; [congruence|].
  pose proof Hall as Hall'. cbn [all_chars] in Hall'.
  apply andb_true_iff in Hall' as [H1 Hd].
  pose proof (is_hex_not_space _ H1) as Hsp.
  pose proof (is_hex_not_sign _ H1) as (Hm & Hp & _ & _).
  change (String c1 d +:+ String c g) with (String c1 (d +:+ String c g)).
  cbn [skip_space]. rewrite Hsp. unfold skip_sign.
  replace (char_code c1 =? 45) with false by (symmetry; apply Z.eqb_neq; assumption).
  replace (char_code c1 =? 43) with false by (symmetry; apply Z.eqb_neq; assumption).
  assert (H0x : skip_0x (String c1 (d +:+ String c g)) = String c1 (d +:+ String c g)).
  { unfold skip_0x. destruct d as [|c2 d].
    - change (EmptyString +:+ String c g) with (String c g).
      destruct g as [|e g]; [reflexivity|].
      replace (char_code c =? 120) with false by (symmetry; apply Z.eqb_neq; assumption).
      replace (char_code c =? 88) with false by (symmetry; apply Z.eqb_neq; assumption).
      rewrite andb_false_r. reflexivity.
    - cbn [all_chars] in Hd. apply andb_true_iff in Hd as [H2 _].
      pose proof (is_hex_not_sign _ H2) as (_ & _ & Hx2 & HX2).
      change (String c2 d +:+ String c g) with (String c2 (d +:+ String c g)).
      destruct (d +:+ String c g); [reflexivity|].
      replace (char_code c2 =? 120) with false by (symmetry; apply Z.eqb_neq; assumption).
      replace (char_code c2 =? 88) with false by (symmetry; apply Z.eqb_neq; assumption).
      rewrite andb_false_r. reflexivity. }
  rewrite H0x.
  change (String c1 (d +:+ String c g)) with (String c1 d +:+ String c g).
  rewrite hex_digits_stop by assumption.
  fold (hex_value (String c1 d)). cbn [String.length Nat.add].
  replace (hex_value (String c1 d) <? LONG_MIN) with false
    by (symmetry; apply Z.ltb_ge; unfold LONG_MIN; lia).
  replace (LONG_MAX <? hex_value (String c1 d)) with false
    by (symmetry; apply Z.ltb_ge; unfold LONG_MAX; lia).
  cbn [orb].
  replace (hex_value (String c1 d) <? INT_MIN) with false
    by (symmetry; apply Z.ltb_ge; unfold INT_MIN; lia).
  replace (INT_MAX <? hex_value (String c1 d)) with false
    by (symmetry; apply Z.ltb_ge; unfold INT_MAX; lia).
  reflexivity.
Qed.

Lemma fourCcFromString_hex_prefix_witness :
  fourCcFromString ("1234567" +:+ String (ascii_of_code 122) "") = Returned (hex_value "1234567").
Proof.
  apply (fourCcFromString_hex_prefix "1234567" (ascii_of_code 122) "").
  - reflexivity.
  - discriminate.
  - reflexivity.
  - reflexivity.
  - vm_compute. discriminate.
  - vm_compute. discriminate.
Defined.

(** X14. On the hex path a [0x] or [0X] in front of six hex digits is a
    prefix, not part of the number: the code is the value of the six
    digits. *)
Theorem fourCcFromString_0x (x : Ascii.ascii) (d : string) :
  char_code x = 120 \/ char_code x = 88 ->
  String.length d = 6%nat -> all_chars is_hex d = true ->
  fourCcFromString (String (ascii_of_code 48) (String x d)) = Returned (hex_value d).
Proof.
  intros Hx Hlen Hall.
  pose proof (hex_value_bounds d Hall) as Hb. rewrite Hlen in Hb.
  change (16 ^ Z.of_nat 6) with 16777216 in Hb.
  unfold fourCcFromString. cbn [String.length]. rewrite Hlen.
  cbn [Z.of_nat Pos.of_succ_nat Pos.succ Z.eqb Z.leb Z.compare Pos.compare Pos.compare_cont].
  unfold stoi16, strtol16.
  change (skip_space (String (ascii_of_code 48) (String x d))) with (String (ascii_of_code 48) (String x d)).
  change (skip_sign (String (ascii_of_code 48) (String x d))) with (false, String (ascii_of_code 48) (String x d)).
  cbv beta iota.
  destruct d as [|d1 d]; [discriminate|].
  assert (H0x : skip_0x (String (ascii_of_code 48) (String x (String d1 d))) = String d1 d).
  { unfold skip_0x. change (char_code (ascii_of_code 48) =? 48) with true.
    replace ((char_code x =? 120) || (char_code x =? 88)) with true
      by (symmetry; apply orb_true_iff; rewrite !Z.eqb_eq; exact Hx).
    cbn [all_chars] in Hall. apply andb_true_iff in Hall as [H1 _].
    unfold is_hex in H1. rewrite H1. reflexivity. }
  rewrite H0x, hex_digits_all by assumption.
  fold (hex_value (String d1 d)). rewrite Hlen. cbn [Nat.add].
  replace (hex_value (String d1 d) <? LONG_MIN) with false
    by (symmetry; apply Z.ltb_ge; unfold LONG_MIN; lia).
  replace (LONG_MAX <? hex_value (String d1 d)) with false
    by (symmetry; apply Z.ltb_ge; unfold LONG_MAX; lia).
  cbn [orb].
  replace (hex_value (String d1 d) <? INT_MIN) with false
    by (symmetry; apply Z.ltb_ge; unfold INT_MIN; lia).
  replace (INT_MAX <? hex_value (String d1 d)) with false
    by (symmetry; apply Z.ltb_ge; unfold INT_MAX; lia).
  reflexivity.
Qed.

Lemma fourCcFromString_0x_witness :
  fourCcFromString (String (ascii_of_code 48) (String (ascii_of_code 120) "47504a")) = Returned (hex_value "47504a").
Proof.
  apply (fourCcFromString_0x (ascii_of_code 120) "47504a").
  - left. reflexivity.
  - reflexivity.
  - reflexivity.
Defined.

(** ** The Resource Path Resolver, continued *)

Lemma string_app_assoc (s1 s2 s3 : string) : (s1 +:+ s2) +:+ s3 = s1 +:+ (s2 +:+ s3).
Proof.
  induction s1 as [|c s1 IH]; [reflexivity|].
  change ((String c s1 +:+ s2) +:+ s3) with (String c ((s1 +:+ s2) +:+ s3)).
  change (String c s1 +:+ (s2 +:+ s3)) with (String c (s1 +:+ (s2 +:+ s3))).
  f_equal. exact IH.
Qed.

(** *** Names that are URIs *)

Lemma match_scheme_rest_colon (scheme rest : string) :
  forall n : nat,
    all_chars scheme_char scheme = true -> all_chars any_char rest = true ->
    (n + String.length scheme <> 0)%nat ->
    match_scheme_rest (scheme +:+ String (ascii_of_code 58) rest) n = true.
Proof.
  induction scheme as [|c scheme IH]; intros n Hs Hr Hn.
  - change (EmptyString +:+ String (ascii_of_code 58) rest)
      with (String (ascii_of_code 58) rest).
    cbn [match_scheme_rest]. change (char_code (ascii_of_code 58)) with 58.
    change (scheme_char 58) with false. cbv iota. change (58 =? 58) with true. cbv iota.
    rewrite Hr, andb_true_r. apply bool_decide_eq_true. cbn [String.length] in Hn. lia.
  - change (String c scheme +:+ String (ascii_of_code 58) rest)
      with (String c (scheme +:+ String (ascii_of_code 58) rest)).
    cbn [match_scheme_rest]. cbn [all_chars] in Hs. apply andb_true_iff in Hs as [Hc Hs].
    rewrite Hc. apply IH; try assumption. lia.
Qed.

(** X15. A name made of a letter, one or more scheme characters, a colon and
    anything on one line is a URI to the resolver: it comes back as it
    is, and the resolver makes no call at all, not even to look for the
    file. *)
Theorem resolve_path_uri (prefix : string) (w : World) (c : Ascii.ascii)
        (scheme rest type : string) (t : list event) :
  isalpha (char_code c) = true -> scheme <> EmptyString ->
  all_chars scheme_char scheme = true -> all_chars any_char rest = true ->
  resolve_path prefix w (String c (scheme +:+ String (ascii_of_code 58) rest)) type t
  = (t, Returned (Some (String c (scheme +:+ String (ascii_of_code 58) rest)))).
Proof.
  intros Hc Hne Hs Hr. unfold resolve_path, regex_match_uri.
  rewrite Hc, match_scheme_rest_colon; try assumption; [reflexivity|].
  destruct scheme; [congruence | cbn; lia].
Qed.

Lemma resolve_path_uri_witness :
  resolve_path "/usr/local" bare_world "http://x/y" "models" []
  = ([], Returned (Some "http://x/y"%string)).
Proof.
  apply (resolve_path_uri "/usr/local" bare_world (ascii_of_code 104) "ttp" "//x/y" "models" []).
  - reflexivity.
  - discriminate.
  - reflexivity.
  - reflexivity.
Defined.

(** X16. A single letter in front of a colon is no scheme, so that a path
    with a drive letter is a file name: when the file is readable the
    resolver opens it and returns the path. *)
Theorem resolve_path_drive_letter (prefix : string) (w : World) (c : Ascii.ascii)
        (rest type : string) (t : list event) :
  String c (String (ascii_of_code 58) rest) ∈ readable w ->
  resolve_path prefix w (String c (String (ascii_of_code 58) rest)) type t
  = (t ++ [EvOpen (String c (String (ascii_of_code 58) rest))],
     Returned (Some (String c (String (ascii_of_code 58) rest)))).
Proof.
  intros Hread. unfold resolve_path, regex_match_uri.
  cbn [match_scheme_rest]. change (char_code (ascii_of_code 58)) with 58.
  change (scheme_char 58) with false. cbv iota. change (58 =? 58) with true. cbv iota.
  rewrite bool_decide_eq_false_2 by (intros H; apply H; reflexivity).
  rewrite andb_false_l, andb_false_r.
  unfold mbind, io_bind, ifstream_good.
  rewrite bool_decide_eq_true_2 by assumption. reflexivity.
Qed.

Lemma resolve_path_drive_letter_witness :
  resolve_path "/usr/local" drive_world "c:/m.dat" "models" []
  = ([EvOpen "c:/m.dat"], Returned (Some "c:/m.dat"%string)).
Proof.
  apply (resolve_path_drive_letter "/usr/local" drive_world (ascii_of_code 99) "/m.dat"
           "models" []).
  vm_compute. reflexivity.
Defined.

(** *** Strings *)

Lemma substring_0_length (s : string) :
  forall n : nat, String.length (String.substring 0 n s) = Nat.min n (String.length s).
Proof.
  induction s as [|c s IH]; intros [|n]; cbn [String.substring String.length Nat.min];
    try reflexivity.
  rewrite IH. reflexivity.
Qed.

Lemma substring_0_app (s1 s2 : string) :
  String.substring 0 (String.length s1) (s1 +:+ s2) = s1.
Proof.
  induction s1 as [|c s1 IH]; [destruct s2; reflexivity|].
  change (String c s1 +:+ s2) with (String c (s1 +:+ s2)).
  cbn [String.length String.substring]. rewrite IH. reflexivity.
Qed.

Lemma suffix_here (p : string) : exists dir, p = dir +:+ p.
Proof. exists EmptyString. reflexivity. Qed.

Lemma suffix_app (a y p : string) :
  (exists dir, y = dir +:+ p) -> exists dir, a +:+ y = dir +:+ p.
Proof. intros [dir ->]. exists (a +:+ dir). symmetry. apply string_app_assoc. Qed.

(** [rfind] answers [npos] or an index inside the string. *)
Lemma rfind_from_range (s : string) (c pos : Z) :
  forall i best : Z,
    rfind_from s c pos i best = best
    \/ i <= rfind_from s c pos i best < i + Z.of_nat (String.length s).
Proof.
  induction s as [|x s IH]; intros i best; cbn [rfind_from String.length]; [left; reflexivity|].
  destruct ((i <=? pos) && (char_code x =? c)).
  - destruct (IH (i + 1) i) as [E|E]; [rewrite E|]; right; lia.
  - destruct (IH (i + 1) best) as [E|E]; [left; exact E | right; lia].
Qed.

Lemma rfind_range (s : string) (c pos : Z) :
  rfind s c pos <> npos -> 0 <= rfind s c pos < Z.of_nat (String.length s).
Proof.
  intros Hne. unfold rfind in *.
  destruct (rfind_from_range s c pos 0 npos) as [E|E]; [congruence | lia].
Qed.

(** *** Every place the resolver looks in *)

Lemma resolved_none (w : World) (provided : string) : resolved w provided None.
Proof. intros p Hp. discriminate. Qed.

Lemma resolved_some (w : World) (provided p : string) :
  p ∈ readable w -> (exists dir, p = dir +:+ provided) -> resolved w provided (Some p).
Proof. intros H1 H2 q Hq. inversion Hq; subst q. split; assumption. Qed.

Lemma search_path_resolved (w : World) (provided type : string) (pieces : list string) :
  forall t : list event,
    exists t' r, search_path w pieces provided type t = (t', Returned r)
                 /\ resolved w provided r.
Proof.
  induction pieces as [|piece pieces IH]; intros t; cbn [search_path].
  - exists t, None. split; [reflexivity | apply resolved_none].
  - unfold mbind, io_bind, ifstream_good.
    destruct (bool_decide _) eqn:E.
    + eexists _, _. split; [reflexivity|]. cbv zeta.
      apply bool_decide_eq_true in E. apply resolved_some; [exact E|].
      repeat apply suffix_app. apply suffix_here.
    + apply IH.
Qed.

Lemma resolve_binary_relative_resolved (w : World) (provided type : string) (t : list event) :
  exists t' r, resolve_binary_relative w provided type t = (t', Returned r)
               /\ resolved w provided r.
Proof.
  unfold resolve_binary_relative, mbind, io_bind, readlink.
  destruct (match self_exe w with
            | Some target => _
            | None => _
            end) as [n binloc].
  destruct ((n <? 1) || (1024 <=? size_t n));
    [eexists _, _; split; [reflexivity | apply resolved_none]|].
  set (result := String.substring 0 (Z.to_nat n) binloc).
  destruct (Z.eqb_spec (rfind result 47 npos) npos) as [|Hpos1];
    [eexists _, _; split; [reflexivity | apply resolved_none]|].
  set (pos := rfind result 47 (size_t (rfind result 47 npos - 1))).
  destruct (Z.eqb_spec pos npos) as [|Hpos];
    [eexists _, _; split; [reflexivity | apply resolved_none]|].
  pose proof (rfind_range result 47 _ Hpos) as Hrange. fold pos in Hrange.
  unfold io_lift, erase.
  replace (Z.of_nat (String.length result) <? pos) with false
    by (symmetry; apply Z.ltb_ge; lia).
  cbv beta iota.
  set (c1 := String.substring 0 (Z.to_nat pos) result
             +:+ "/share/backscrub/" +:+ type +:+ "/" +:+ provided).
  unfold ifstream_good at 1.
  destruct (bool_decide (c1 ∈ readable w)) eqn:E1.
  { eexists _, _. split; [reflexivity|].
    apply bool_decide_eq_true in E1. apply resolved_some; [exact E1|].
    subst c1. repeat apply suffix_app. apply suffix_here. }
  replace (Z.of_nat (String.length c1) <? pos) with false.
  2:{ symmetry. apply Z.ltb_ge. subst c1. rewrite append_length, substring_0_length. lia. }
  cbv beta iota.
  set (c2 := String.substring 0 (Z.to_nat pos) c1 +:+ "/" +:+ type +:+ "/" +:+ provided).
  unfold ifstream_good at 1.
  destruct (bool_decide (c2 ∈ readable w)) eqn:E2.
  - eexists _, _. split; [reflexivity|].
    apply bool_decide_eq_true in E2. apply resolved_some; [exact E2|].
    subst c2. repeat apply suffix_app. apply suffix_here.
  - eexists _, _. split; [reflexivity | apply resolved_none].
Qed.

Lemma resolve_data_dirs_end (prefix : string) (w : World) (provided type : string)
      (t : list event) :
  exists t' o, resolve_data_dirs prefix w provided type t = (t', o)
               /\ search_end w provided o.
Proof.
  assert (Htail : forall root tt,
    exists t' o,
      (let result := root +:+ "/backscrub/" +:+ type +:+ "/" +:+ provided in
       ok ← ifstream_good w result;
       if ok : bool then mret (Some result) else
       let result := EmptyString +:+ prefix +:+ "/share/backscrub/" +:+ type +:+ "/"
                     +:+ provided in
       ok ← ifstream_good w result;
       if ok : bool then mret (Some result) else
       resolve_binary_relative w provided type) tt = (t', o)
      /\ search_end w provided o).
  { intros root tt. cbv zeta.
    set (c1 := root +:+ "/backscrub/" +:+ type +:+ "/" +:+ provided).
    set (c2 := EmptyString +:+ prefix +:+ "/share/backscrub/" +:+ type +:+ "/" +:+ provided).
    unfold mbind, io_bind, ifstream_good, mret, io_ret.
    destruct (bool_decide (c1 ∈ readable w)) eqn:E1.
    { eexists _, _. split; [reflexivity|]. cbn [search_end].
      apply bool_decide_eq_true in E1. apply resolved_some; [exact E1|].
      subst c1. repeat apply suffix_app. apply suffix_here. }
    destruct (bool_decide (c2 ∈ readable w)) eqn:E2.
    { eexists _, _. split; [reflexivity|]. cbn [search_end].
      apply bool_decide_eq_true in E2. apply resolved_some; [exact E2|].
      subst c2. repeat apply suffix_app. apply suffix_here. }
    match goal with
    | |- context [resolve_binary_relative w provided type ?t0] =>
      destruct (resolve_binary_relative_resolved w provided type t0) as (t3 & r3 & E3 & H3)
    end.
    rewrite E3. eexists _, _. split; [reflexivity | exact H3]. }
  unfold resolve_data_dirs.
  unfold mbind at 1, io_bind at 1, getenv at 1.
  destruct (environ w !! "XDG_DATA_HOME") as [xdg|] eqn:Ex.
  - unfold mbind at 1, io_bind at 1. unfold mbind at 1, io_bind at 1, getenv at 1.
    rewrite Ex. cbn [from_cstr mret io_ret]. apply Htail.
  - unfold mbind at 1, io_bind at 1. unfold mbind at 1, io_bind at 1, getenv at 1.
    destruct (environ w !! "HOME") as [home|] eqn:Eh.
    + unfold mbind at 1, io_bind at 1. cbn [from_cstr mret io_ret]. apply Htail.
    + cbn [from_cstr io_undefined]. eexists _, _. split; [reflexivity|].
      cbn [search_end]. split; assumption.
Qed.

Lemma resolve_path_end (prefix : string) (w : World) (provided type : string)
      (t : list event) :
  regex_match_uri provided = false ->
  exists t' o, resolve_path prefix w provided type t = (t', o) /\ search_end w provided o.
Proof.
  intros Huri. unfold resolve_path. rewrite Huri.
  unfold mbind at 1, io_bind at 1, ifstream_good at 1.
  destruct (bool_decide (provided ∈ readable w)) eqn:E0.
  { eexists _, _. split; [reflexivity|]. cbn [search_end].
    apply bool_decide_eq_true in E0. apply resolved_some; [exact E0 | apply suffix_here]. }
  destruct (contains 47 provided).
  { eexists _, _. split; [reflexivity | apply resolved_none]. }
  unfold mbind at 1, io_bind at 1, getenv at 1.
  destruct (environ w !! "BACKSCRUB_PATH") as [bsp|] eqn:Eb.
  - unfold mbind at 1, io_bind at 1. unfold mbind at 1, io_bind at 1, getenv at 1.
    rewrite Eb. unfold mbind at 1, io_bind at 1. cbn [from_cstr mret io_ret].
    match goal with
    | |- context [search_path w ?l provided type ?tt] =>
      destruct (search_path_resolved w provided type l tt) as (t1 & r1 & E1 & H1)
    end.
    rewrite E1. destruct r1 as [p|].
    + eexists _, _. split; [reflexivity | exact H1].
    + apply resolve_data_dirs_end.
  - unfold mbind at 1, io_bind at 1. cbn [mret io_ret]. apply resolve_data_dirs_end.
Qed.



(** X18. With XDG_DATA_HOME or HOME set the resolver always comes back with
    an answer, a path or "not found". *)
Theorem resolve_path_returns (prefix : string) (w : World) (provided type : string)
        (t : list event) :
  is_Some (environ w !! "XDG_DATA_HOME") \/ is_Some (environ w !! "HOME") ->
  exists t' r, resolve_path prefix w provided type t = (t', Returned r).
Proof.
  intros Henv. destruct (regex_match_uri provided) eqn:Huri.
  - unfold resolve_path. rewrite Huri. eexists _, _. reflexivity.
  - destruct (resolve_path_end prefix w provided type t Huri) as (t1 & o & E & Hend).
    destruct o as [r| | | |]; cbn [search_end] in Hend; try contradiction.
    + eexists _, _. exact E.
    + destruct Hend as [Hx Hh]. rewrite Hx, Hh in Henv.
      destruct Henv as [[x Hs]|[x Hs]]; discriminate.
Qed.

Lemma resolve_path_returns_witness :
  exists t' r, resolve_path "/usr/local" search_world "bar.dat" "models" [] = (t', Returned r).
Proof.
  apply (resolve_path_returns "/usr/local" search_world "bar.dat" "models" []).
  right. exists "/home/u"%string. vm_compute. reflexivity.
Defined.

(** X19. The resolver raises no error: no exception leaves it and no
    assertion fails, whatever the name, the environment and the files. *)
Theorem resolve_path_no_error (prefix : string) (w : World) (provided type : string)
        (t : list event) :
  match snd (resolve_path prefix w provided type t) with
  | Returned _ | Undefined => True
  | _ => False
  end.
Proof.
  destruct (regex_match_uri provided) eqn:Huri.
  - unfold resolve_path. rewrite Huri. exact I.
  - destruct (resolve_path_end prefix w provided type t Huri) as (t1 & o & E & Hend).
    rewrite E. cbn [snd]. destruct o; cbn [search_end] in Hend; try contradiction; exact I.
Qed.

(** *** The search path *)

Lemma search_path_first (w : World) (provided type : string) (root : string)
      (after : list string) (before : list string) :
  forall t : list event,
    (forall r, r ∈ before -> in_dir r type provided ∉ readable w) ->
    in_dir root type provided ∈ readable w ->
    search_path w (before ++ root :: after) provided type t
    = (t ++ (EvOpen <$> ((fun r => in_dir r type provided) <$> before))
         ++ [EvOpen (in_dir root type provided)],
       Returned (Some (in_dir root type provided))).
Proof.
  induction before as [|r before IH]; intros t Hmiss Hhit; cbn [app search_path fmap list_fmap].
  - unfold mbind, io_bind, ifstream_good. fold (in_dir root type provided).
    rewrite bool_decide_eq_true_2 by assumption. reflexivity.
  - unfold mbind, io_bind, ifstream_good. fold (in_dir r type provided).
    rewrite bool_decide_eq_false_2 by (apply Hmiss; left).
    rewrite IH; [|intros r' Hr'; apply Hmiss; right; exact Hr' | assumption].
    rewrite <- !app_assoc. reflexivity.
Qed.

(** X20. The roots of BACKSCRUB_PATH are tried in their order and the
    first one that holds the file wins: the resolver opens the name,
    then [root/type/name] for each root before the hit and for the hit,
    and reads no other variable. *)
Theorem resolve_path_first_root (prefix : string) (w : World) (provided type : string)
        (t : list event) (v root : string) (before after : list string) :
  regex_match_uri provided = false -> provided ∉ readable w ->
  contains 47 provided = false ->
  environ w !! "BACKSCRUB_PATH" = Some v ->
  getlines v = before ++ root :: after ->
  (forall r, r ∈ before -> in_dir r type provided ∉ readable w) ->
  in_dir root type provided ∈ readable w ->
  resolve_path prefix w provided type t
  = (t ++ [EvOpen provided; EvGetenv "BACKSCRUB_PATH"; EvGetenv "BACKSCRUB_PATH"]
       ++ (EvOpen <$> ((fun r => in_dir r type provided) <$> before))
       ++ [EvOpen (in_dir root type provided)],
     Returned (Some (in_dir root type provided))).
Proof.
  intros Huri Hmiss Hsep Henv Hsplit Hbefore Hhit.
  unfold resolve_path. rewrite Huri.
  unfold mbind at 1, io_bind at 1. rewrite ifstream_missing by assumption.
  rewrite Hsep.
  unfold mbind at 1, io_bind at 1, getenv at 1. rewrite Henv.
  unfold mbind at 1, io_bind at 1. unfold mbind at 1, io_bind at 1, getenv at 1.
  rewrite Henv. unfold mbind at 1, io_bind at 1. cbn [from_cstr mret io_ret].
  rewrite Hsplit, search_path_first by assumption.
  rewrite <- !app_assoc. reflexivity.
Qed.

Lemma resolve_path_first_root_witness :
  resolve_path "/usr/local" search_world "foo.dat" "models" []
  = ([] ++ [EvOpen "foo.dat"; EvGetenv "BACKSCRUB_PATH"; EvGetenv "BACKSCRUB_PATH"]
        ++ (EvOpen <$> ((fun r => in_dir r "models" "foo.dat") <$> ["/srv"%string]))
        ++ [EvOpen (in_dir "/opt/bs" "models" "foo.dat")],
     Returned (Some (in_dir "/opt/bs" "models" "foo.dat"))).
Proof.
  apply (resolve_path_first_root "/usr/local" search_world "foo.dat" "models" []
           "/srv:/opt/bs" "/opt/bs" ["/srv"%string] []).
  - reflexivity.
  - vm_compute. discriminate.
  - reflexivity.
  - vm_compute. reflexivity.
  - reflexivity.
  - intros r Hr. apply list_elem_of_singleton in Hr. subst r. vm_compute. discriminate.
  - vm_compute. reflexivity.
Defined.

(** X21. The pieces [std::getline] cuts a search path into hold no colon,
    and put together again with colons they are the search path, when
    it does not end in a colon. *)
Theorem getlines_join (s : string) :
  (forall piece, piece ∈ getlines s -> contains 58 piece = false)
  /\ (ends_with_colon s = false -> join_colon (getlines s) = s).
Proof.
  induction s as [|c s [IHc IHj]]; [split; [intros p Hp; inversion Hp | reflexivity]|].
  cbn [getlines ends_with_colon].
  destruct (Z.eqb_spec (char_code c) 58) as [Hc|Hc].
  - split.
    + intros p Hp. apply elem_of_cons in Hp as [->|Hp]; [reflexivity | apply IHc, Hp].
    + intros Hend. destruct s as [|c' s]; [discriminate|].
      specialize (IHj Hend).
      assert (Hcol : c = ascii_of_code 58).
      { rewrite <- Hc. unfold char_code, ascii_of_code.
        rewrite N2Z.id, Ascii.ascii_N_embedding. reflexivity. }
      destruct (getlines (String c' s)) as [|p ps] eqn:E.
      { cbn [getlines] in E. destruct (char_code c' =? 58); [discriminate|].
        destruct (getlines s); discriminate. }
      change (join_colon (EmptyString :: p :: ps))
        with (EmptyString +:+ ":" +:+ join_colon (p :: ps)).
      rewrite IHj, Hcol. reflexivity.
  - split.
    + intros p Hp. destruct (getlines s) as [|q qs] eqn:E.
      * apply list_elem_of_singleton in Hp. subst p. cbn [contains].
        replace (char_code c =? 58) with false by (symmetry; apply Z.eqb_neq; exact Hc).
        reflexivity.
      * apply elem_of_cons in Hp as [->|Hp].
        -- cbn [contains].
           replace (char_code c =? 58) with false by (symmetry; apply Z.eqb_neq; exact Hc).
           apply IHc. left.
        -- apply IHc. right. exact Hp.
    + intros Hend. destruct s as [|c' s]; [reflexivity|].
      specialize (IHj Hend).
      destruct (getlines (String c' s)) as [|q qs] eqn:E.
      { cbn [getlines] in E. destruct (char_code c' =? 58); [discriminate|].
        destruct (getlines s); discriminate. }
      rewrite <- IHj. destruct qs; reflexivity.
Qed.

Lemma getlines_join_witness :
  (forall piece, piece ∈ getlines "/srv::/opt/bs" -> contains 58 piece = false)
  /\ (ends_with_colon "/srv::/opt/bs" = false
      -> join_colon (getlines "/srv::/opt/bs") = "/srv::/opt/bs"%string).
Proof. apply (getlines_join "/srv::/opt/bs"). Defined.

(** *** The places next to the binary *)

(** X22. When the link to the running binary cannot be read, or its target
    does not fit the buffer of 1024 bytes with room to spare, the places
    next to the binary are given up: one [readlink], no [open], "not
    found". *)
Theorem resolve_binary_relative_no_exe (w : World) (provided type : string)
        (t : list event) :
  (forall target, self_exe w = Some target -> (1024 <= String.length target)%nat) ->
  resolve_binary_relative w provided type t
  = (t ++ [EvReadlink "/proc/self/exe"], Returned None).
Proof.
  intros Hexe. unfold resolve_binary_relative, mbind, io_bind, readlink.
  destruct (self_exe w) as [target|].
  - specialize (Hexe target eq_refl).
    rewrite Z.min_r by lia. change (size_t 1024) with 1024.
    change (1024 <? 1) with false. change (1024 <=? 1024) with true. reflexivity.
  - reflexivity.
Qed.

Lemma resolve_binary_relative_no_exe_witness :
  resolve_binary_relative bare_world "foo.dat" "models" []
  = ([EvReadlink "/proc/self/exe"], Returned None).
Proof.
  apply (resolve_binary_relative_no_exe bare_world "foo.dat" "models" []).
  intros target H. discriminate H.
Defined.

Lemma substring_0_all (s : string) :
  forall n : nat, (String.length s <= n)%nat -> String.substring 0 n s = s.
Proof.
  induction s as [|c s IH]; intros [|n] Hn; cbn [String.length] in Hn;
    cbn [String.substring]; try reflexivity; try lia.
  rewrite IH by lia. reflexivity.
Qed.

Lemma rfind_from_app (s1 s2 : string) (c pos : Z) :
  forall i best : Z,
    rfind_from (s1 +:+ s2) c pos i best
    = rfind_from s2 c pos (i + Z.of_nat (String.length s1)) (rfind_from s1 c pos i best).
Proof.
  induction s1 as [|x s1 IH]; intros i best.
  - change (EmptyString +:+ s2) with s2. cbn [rfind_from String.length].
    f_equal. lia.
  - change (String x s1 +:+ s2) with (String x (s1 +:+ s2)).
    cbn [rfind_from String.length]. rewrite IH. f_equal. lia.
Qed.

Lemma rfind_from_none (s : string) (c pos : Z) :
  forall i best : Z, contains c s = false -> rfind_from s c pos i best = best.
Proof.
  induction s as [|x s IH]; intros i best Hc; cbn [rfind_from]; [reflexivity|].
  cbn [contains] in Hc. apply orb_false_iff in Hc as [Hx Hs].
  rewrite Hx, andb_false_r. apply IH. exact Hs.
Qed.

(** [rfind] for the separator in [root/dir/name], where [dir] and
    [name] hold none. *)
Lemma rfind_two_segments (root dir name : string) (pos : Z) :
  contains 47 dir = false -> contains 47 name = false ->
  let lr := Z.of_nat (String.length root) in
  let ld := Z.of_nat (String.length dir) in
  rfind (root +:+ "/" +:+ dir +:+ "/" +:+ name) 47 pos
  = if lr + 1 + ld <=? pos then lr + 1 + ld
    else if lr <=? pos then lr
    else rfind root 47 pos.
Proof.
  intros Hd Hn lr ld. unfold rfind.
  rewrite rfind_from_app.
  change ("/" +:+ dir +:+ "/" +:+ name) with (String (ascii_of_code 47) (dir +:+ "/" +:+ name)).
  cbn [rfind_from]. change (char_code (ascii_of_code 47) =? 47) with true.
  rewrite andb_true_r, rfind_from_app, (rfind_from_none dir) by assumption.
  change ("/" +:+ name) with (String (ascii_of_code 47) name).
  cbn [rfind_from]. change (char_code (ascii_of_code 47) =? 47) with true.
  rewrite andb_true_r, (rfind_from_none name) by assumption.
  fold lr ld. replace (0 + lr) with lr by lia.
  destruct (Z.leb_spec (lr + 1 + ld) pos); [reflexivity|].
  destruct (Z.leb_spec lr pos); reflexivity.
Qed.

(** X23. For a binary at [root/dir/name] the resolver takes [root], two
    directories up from the binary, as the place of the installation: it
    tries [root/share/backscrub/type/provided], then
    [root/type/provided], and answers with the first that is readable. *)
Theorem resolve_binary_relative_places (w : World) (provided type : string)
        (t : list event) (root dir name : string) :
  self_exe w = Some (root +:+ "/" +:+ dir +:+ "/" +:+ name) ->
  contains 47 dir = false -> contains 47 name = false ->
  (String.length (root +:+ "/" +:+ dir +:+ "/" +:+ name) < 1024)%nat ->
  resolve_binary_relative w provided type t
  = if bool_decide (root +:+ "/share/backscrub/" +:+ type +:+ "/" +:+ provided ∈ readable w)
    then (t ++ [EvReadlink "/proc/self/exe";
                EvOpen (root +:+ "/share/backscrub/" +:+ type +:+ "/" +:+ provided)],
          Returned (Some (root +:+ "/share/backscrub/" +:+ type +:+ "/" +:+ provided)))
    else (t ++ [EvReadlink "/proc/self/exe";
                EvOpen (root +:+ "/share/backscrub/" +:+ type +:+ "/" +:+ provided);
                EvOpen (in_dir root type provided)],
          Returned (if bool_decide (in_dir root type provided ∈ readable w)
                    then Some (in_dir root type provided) else None)).
Proof.
  intros Hexe Hd Hn Hlen.
  set (target := root +:+ "/" +:+ dir +:+ "/" +:+ name) in *.
  assert (Hl : String.length target
               = (String.length root + 1 + String.length dir + 1 + String.length name)%nat).
  { subst target. rewrite !append_length. cbn [String.length]. lia. }
  unfold resolve_binary_relative, mbind at 1, io_bind at 1, readlink. rewrite Hexe.
  rewrite Z.min_l by lia.
  rewrite (substring_0_all target (Z.to_nat 1024)) by lia.
  replace (Z.of_nat (String.length target) <? 1) with false
    by (symmetry; apply Z.ltb_ge; lia).
  rewrite size_t_small64 by lia.
  replace (1024 <=? Z.of_nat (String.length target)) with false
    by (symmetry; apply Z.leb_gt; lia).
  cbn [orb]. rewrite Nat2Z.id, (substring_0_all target) by lia.
  assert (Hpos1 : rfind target 47 npos
                  = Z.of_nat (String.length root) + 1 + Z.of_nat (String.length dir)).
  { subst target. rewrite rfind_two_segments by assumption. cbv zeta.
    replace (_ <=? npos) with true by (symmetry; apply Z.leb_le; unfold npos; lia).
    reflexivity. }
  rewrite Hpos1.
  replace (_ =? npos) with false by (symmetry; apply Z.eqb_neq; unfold npos; lia).
  rewrite size_t_small64 by lia.
  assert (Hpos2 : rfind target 47
                    (Z.of_nat (String.length root) + 1 + Z.of_nat (String.length dir) - 1)
                  = Z.of_nat (String.length root)).
  { subst target. rewrite rfind_two_segments by assumption. cbv zeta.
    replace (_ + 1 + _ <=? _) with false by (symmetry; apply Z.leb_gt; lia).
    replace (_ <=? _) with true by (symmetry; apply Z.leb_le; lia).
    reflexivity. }
  rewrite Hpos2.
  replace (_ =? npos) with false by (symmetry; apply Z.eqb_neq; unfold npos; lia).
  unfold io_lift, erase.
  replace (Z.of_nat (String.length target) <? Z.of_nat (String.length root)) with false
    by (symmetry; apply Z.ltb_ge; lia).
  unfold mbind at 1, io_bind at 1. rewrite Nat2Z.id.
  replace (String.substring 0 (String.length root) target) with root
    by (subst target; symmetry; apply substring_0_app).
  set (c1 := root +:+ "/share/backscrub/" +:+ type +:+ "/" +:+ provided).
  unfold mbind at 1, io_bind at 1, ifstream_good at 1.
  destruct (bool_decide (c1 ∈ readable w)) eqn:E1.
  { cbn [mret io_ret]. rewrite <- app_assoc. reflexivity. }
  replace (Z.of_nat (String.length c1) <? Z.of_nat (String.length root)) with false
    by (symmetry; apply Z.ltb_ge; subst c1; rewrite append_length; lia).
  unfold mbind at 1, io_bind at 1.
  replace (String.substring 0 (String.length root) c1) with root
    by (subst c1; symmetry; apply substring_0_app).
  fold (in_dir root type provided).
  unfold mbind at 1, io_bind at 1, ifstream_good at 1.
  destruct (bool_decide (in_dir root type provided ∈ readable w));
    cbn [mret io_ret]; rewrite <- !app_assoc; reflexivity.
Qed.

Lemma resolve_binary_relative_places_witness :
  resolve_binary_relative dev_world "foo.dat" "models" []
  = if bool_decide ("/usr" +:+ "/share/backscrub/" +:+ "models" +:+ "/" +:+ "foo.dat"
                    ∈ readable dev_world)
    then ([] ++ [EvReadlink "/proc/self/exe";
                 EvOpen ("/usr" +:+ "/share/backscrub/" +:+ "models" +:+ "/" +:+ "foo.dat")],
          Returned (Some ("/usr" +:+ "/share/backscrub/" +:+ "models" +:+ "/" +:+ "foo.dat")))
    else ([] ++ [EvReadlink "/proc/self/exe";
                 EvOpen ("/usr" +:+ "/share/backscrub/" +:+ "models" +:+ "/" +:+ "foo.dat");
                 EvOpen (in_dir "/usr" "models" "foo.dat")],
          Returned (if bool_decide (in_dir "/usr" "models" "foo.dat" ∈ readable dev_world)
                    then Some (in_dir "/usr" "models" "foo.dat") else None)).
Proof.
  apply (resolve_binary_relative_places dev_world "foo.dat" "models" []
           "/usr" "bin" "backscrub").
  - reflexivity.
  - reflexivity.
  - reflexivity.
  - vm_compute. lia.
Defined.

(** X24. For a binary in the root directory, [/name], the one separator is
    found twice (the second search starts from [pos - 1], which wraps
    around to [npos]), and the resolver takes the empty path as the
    place of the installation: it tries [/share/backscrub/type/provided]
    and [/type/provided]. *)
Theorem resolve_binary_relative_root_binary (w : World) (provided type : string)
        (t : list event) (name : string) :
  self_exe w = Some ("/" +:+ name) -> contains 47 name = false ->
  (String.length name < 1023)%nat ->
  resolve_binary_relative w provided type t
  = if bool_decide ("/share/backscrub/" +:+ type +:+ "/" +:+ provided ∈ readable w)
    then (t ++ [EvReadlink "/proc/self/exe";
                EvOpen ("/share/backscrub/" +:+ type +:+ "/" +:+ provided)],
          Returned (Some ("/share/backscrub/" +:+ type +:+ "/" +:+ provided)))
    else (t ++ [EvReadlink "/proc/self/exe";
                EvOpen ("/share/backscrub/" +:+ type +:+ "/" +:+ provided);
                EvOpen ("/" +:+ type +:+ "/" +:+ provided)],
          Returned (if bool_decide ("/" +:+ type +:+ "/" +:+ provided ∈ readable w)
                    then Some ("/" +:+ type +:+ "/" +:+ provided) else None)).
Proof.
  intros Hexe Hn Hlen.
  set (target := "/" +:+ name) in *.
  assert (Hl : String.length target = S (String.length name)) by reflexivity.
  assert (Hfind : forall pos, 0 <= pos -> rfind target 47 pos = 0).
  { intros pos Hpos. unfold rfind. subst target.
    change ("/" +:+ name) with (String (ascii_of_code 47) name).
    cbn [rfind_from]. change (char_code (ascii_of_code 47) =? 47) with true.
    replace (0 <=? pos) with true by (symmetry; apply Z.leb_le; exact Hpos).
    cbn [andb]. apply rfind_from_none. exact Hn. }
  unfold resolve_binary_relative, mbind at 1, io_bind at 1, readlink. rewrite Hexe.
  rewrite Z.min_l by lia.
  rewrite (substring_0_all target (Z.to_nat 1024)) by lia.
  replace (Z.of_nat (String.length target) <? 1) with false
    by (symmetry; apply Z.ltb_ge; lia).
  rewrite size_t_small64 by lia.
  replace (1024 <=? Z.of_nat (String.length target)) with false
    by (symmetry; apply Z.leb_gt; lia).
  cbn [orb]. rewrite Nat2Z.id, (substring_0_all target) by lia.
  rewrite (Hfind npos) by (unfold npos; lia).
  change (0 =? npos) with false. cbv iota.
  change (size_t (0 - 1)) with npos.
  rewrite (Hfind npos) by (unfold npos; lia).
  change (0 =? npos) with false. cbv iota.
  unfold io_lift, erase.
  replace (Z.of_nat (String.length target) <? 0) with false
    by (symmetry; apply Z.ltb_ge; lia).
  unfold mbind at 1, io_bind at 1. change (Z.to_nat 0) with O.
  replace (String.substring 0 0 target) with EmptyString by (subst target; reflexivity).
  change (EmptyString +:+ "/share/backscrub/" +:+ type +:+ "/" +:+ provided)
    with ("/share/backscrub/" +:+ type +:+ "/" +:+ provided).
  set (c1 := "/share/backscrub/" +:+ type +:+ "/" +:+ provided).
  unfold mbind at 1, io_bind at 1, ifstream_good at 1.
  destruct (bool_decide (c1 ∈ readable w)) eqn:E1.
  { cbn [mret io_ret]. rewrite <- app_assoc. reflexivity. }
  replace (Z.of_nat (String.length c1) <? 0) with false
    by (symmetry; apply Z.ltb_ge; lia).
  unfold mbind at 1, io_bind at 1.
  replace (String.substring 0 0 c1) with EmptyString by (subst c1; reflexivity).
  change (EmptyString +:+ "/" +:+ type +:+ "/" +:+ provided)
    with ("/" +:+ type +:+ "/" +:+ provided).
  unfold mbind at 1, io_bind at 1, ifstream_good at 1.
  destruct (bool_decide ("/" +:+ type +:+ "/" +:+ provided ∈ readable w));
    cbn [mret io_ret]; rewrite <- !app_assoc; reflexivity.
Qed.

Lemma resolve_binary_relative_root_binary_witness :
  resolve_binary_relative root_world "foo.dat" "models" []
  = if bool_decide ("/share/backscrub/" +:+ "models" +:+ "/" +:+ "foo.dat"
                    ∈ readable root_world)
    then ([] ++ [EvReadlink "/proc/self/exe";
                 EvOpen ("/share/backscrub/" +:+ "models" +:+ "/" +:+ "foo.dat")],
          Returned (Some ("/share/backscrub/" +:+ "models" +:+ "/" +:+ "foo.dat")))
    else ([] ++ [EvReadlink "/proc/self/exe";
                 EvOpen ("/share/backscrub/" +:+ "models" +:+ "/" +:+ "foo.dat");
                 EvOpen ("/" +:+ "models" +:+ "/" +:+ "foo.dat")],
          Returned (if bool_decide ("/" +:+ "models" +:+ "/" +:+ "foo.dat" ∈ readable root_world)
                    then Some ("/" +:+ "models" +:+ "/" +:+ "foo.dat") else None)).
Proof.
  apply (resolve_binary_relative_root_binary root_world "foo.dat" "models" [] "backscrub").
  - reflexivity.
  - reflexivity.
  - vm_compute. lia.
Defined.

(** ** The eight-character path, in full *)

Lemma skip_space_front (ws body : string) :
  all_chars isspace ws = true -> starts_with isspace body = false ->
  skip_space (ws +:+ body) = body.
Proof.
  intros Hws Hbody. induction ws as [|c ws IH].
  - change (EmptyString +:+ body) with body.
    destruct body as [|b body]; [reflexivity|].
    cbn [skip_space]. cbn [starts_with] in Hbody. rewrite Hbody. reflexivity.
  - change (String c ws +:+ body) with (String c (ws +:+ body)).
    cbn [all_chars] in Hws. apply andb_true_iff in Hws as [Hc Hws].
    cbn [skip_space]. rewrite Hc. apply IH. exact Hws.
Qed.

Lemma skip_sign_none (body : string) :
  starts_with is_sign body = false -> skip_sign body = (false, body).
Proof.
  intros H. destruct body as [|c body]; [reflexivity|].
  cbn [starts_with] in H. unfold is_sign in H. apply orb_false_iff in H as [H43 H45].
  unfold skip_sign. rewrite H45, H43. reflexivity.
Qed.

Lemma skip_0x_none (body : string) :
  starts_0x_digit body = false -> skip_0x body = body.
Proof.
  intros H. destruct body as [|z [|x [|h body]]]; try reflexivity.
  cbn [starts_0x_digit] in H. unfold is_x, is_hex in H.
  unfold skip_0x. rewrite H. reflexivity.
Qed.

(** [hex_digits] reads the digits at the front and no more. *)
Lemma hex_digits_front (d r : string) :
  forall (acc : Z) (n : nat),
    all_chars is_hex d = true -> starts_with is_hex r = false ->
    hex_digits (d +:+ r) acc n
    = (foldl (fun a x => a * 16 + default 0 (hex_digit x)) acc (bytes_of d),
       (n + String.length d)%nat).
Proof.
  induction d as [|c d IH]; intros acc n Hd Hr.
  - change (EmptyString +:+ r) with r. cbn [bytes_of foldl String.length].
    destruct r as [|x r]; cbn [hex_digits]; [f_equal; lia|].
    cbn [starts_with] in Hr. rewrite (is_hex_none _ Hr). f_equal. lia.
  - change (String c d +:+ r) with (String c (d +:+ r)).
    cbn [hex_digits bytes_of foldl String.length].
    cbn [all_chars] in Hd. apply andb_true_iff in Hd as [Hc Hd].
    destruct (is_hex_digit _ Hc) as (v & Hv & _). rewrite Hv.
    change (default 0 (Some v)) with v.
    rewrite IH by assumption. f_equal. lia.
Qed.

(** The blanks and the sign of a reading are what [strtol] skips. *)
Lemma reading_sign (ws sg rest : string) (neg : bool) :
  all_chars isspace ws = true -> sign_text sg = Some neg ->
  (if is_empty sg
   then negb (starts_with (fun c => isspace c || is_sign c) rest)
   else true) = true ->
  skip_sign (skip_space (ws +:+ sg +:+ rest)) = (neg, rest).
Proof.
  intros Hws Hsg Hnext.
  destruct sg as [|c [|c' sg]]; cbn [sign_text] in Hsg; try discriminate.
  - inversion Hsg; subst neg. change (EmptyString +:+ rest) with rest.
    cbn [is_empty] in Hnext. apply negb_true_iff in Hnext.
    assert (Hsp : starts_with isspace rest = false /\ starts_with is_sign rest = false).
    { destruct rest as [|x rest]; [split; reflexivity|].
      cbn [starts_with] in *. apply orb_false_iff in Hnext. exact Hnext. }
    destruct Hsp as [Hsp Hsi].
    rewrite skip_space_front by assumption. apply skip_sign_none. exact Hsi.
  - change (String c EmptyString +:+ rest) with (String c rest).
    assert (Hsp : isspace (char_code c) = false).
    { destruct (Z.eqb_spec (char_code c) 45) as [E|_]; [rewrite E; reflexivity|].
      destruct (Z.eqb_spec (char_code c) 43) as [E|_]; [rewrite E; reflexivity|].
      discriminate. }
    rewrite skip_space_front by assumption. unfold skip_sign.
    destruct (char_code c =? 45); [inversion Hsg; reflexivity|].
    destruct (char_code c =? 43); [inversion Hsg; reflexivity | discriminate].
Qed.

(** The prefix of a reading is what [strtol] takes for one. *)
Lemma reading_prefix (px d r : string) :
  prefix_text px = true -> all_chars is_hex d = true ->
  (if is_empty px then negb (starts_0x_digit (d +:+ r)) else negb (is_empty d)) = true ->
  skip_0x (px +:+ d +:+ r) = d +:+ r.
Proof.
  intros Hpx Hd Hcanon.
  destruct px as [|z [|x [|y px]]]; cbn [prefix_text] in Hpx; try discriminate.
  - change (EmptyString +:+ d +:+ r) with (d +:+ r).
    cbn [is_empty] in Hcanon. apply negb_true_iff in Hcanon.
    apply skip_0x_none. exact Hcanon.
  - cbn [is_empty] in Hcanon. destruct d as [|h d]; [discriminate|].
    change (String z (String x EmptyString) +:+ String h d +:+ r)
      with (String z (String x (String h (d +:+ r)))).
    change (String h d +:+ r) with (String h (d +:+ r)).
    cbn [all_chars] in Hd. apply andb_true_iff in Hd as [Hh _].
    unfold is_x in Hpx. unfold is_hex in Hh.
    unfold skip_0x. rewrite Hpx, Hh. reflexivity.
Qed.

(** [std::stoi] in base 16 on a text of at most eight digits. *)
Lemma stoi16_reading (ws sg px d r : string) :
  (String.length d <= 8)%nat -> hex_reading ws sg px d r = true ->
  stoi16 (ws +:+ sg +:+ px +:+ d +:+ r) = reading_outcome sg d.
Proof.
  intros Hlen Hread. unfold hex_reading in Hread.
  rewrite !andb_true_iff in Hread.
  destruct Hread as [[[[[[Hws Hsg] Hpx] Hd] Hr] Hnext] Hcanon].
  apply bool_decide_eq_true in Hsg as [neg Hsg]. apply negb_true_iff in Hr.
  pose proof (hex_value_bounds d Hd) as Hb.
  assert (Hpow : 16 ^ Z.of_nat (String.length d) <= 16 ^ 8)
    by (apply Z.pow_le_mono_r; lia).
  change (16 ^ 8) with 4294967296 in Hpow.
  unfold stoi16, strtol16, reading_outcome.
  rewrite (reading_sign ws sg (px +:+ d +:+ r) neg Hws Hsg Hnext).
  rewrite (reading_prefix px d r Hpx Hd Hcanon).
  rewrite hex_digits_front by assumption. fold (hex_value d). rewrite Hsg.
  destruct d as [|c d]; [reflexivity|].
  cbn [String.length Nat.add is_empty].
  set (hv := hex_value (String c d)) in *.
  cbv iota. set (v := if neg then - hv else hv).
  assert (Hvb : - 4294967296 < v < 4294967296) by (subst v; destruct neg; lia).
  replace (v <? LONG_MIN) with false by (symmetry; apply Z.ltb_ge; unfold LONG_MIN; lia).
  replace (LONG_MAX <? v) with false by (symmetry; apply Z.ltb_ge; unfold LONG_MAX; lia).
  cbn [orb].
  destruct (Z.ltb_spec v INT_MIN), (Z.leb_spec INT_MIN v); try lia; cbn [orb andb];
    try reflexivity.
  destruct (Z.ltb_spec INT_MAX v), (Z.leb_spec v INT_MAX); try lia; reflexivity.
Qed.

(** Every text has a reading. *)
Lemma space_split (s : string) :
  exists ws body, s = ws +:+ body /\ all_chars isspace ws = true
                  /\ starts_with isspace body = false.
Proof.
  induction s as [|c s (ws & body & E & Hws & Hbody)].
  - exists EmptyString, EmptyString. repeat split.
  - destruct (isspace (char_code c)) eqn:Hc.
    + exists (String c ws), body. rewrite E. repeat split; [|exact Hbody].
      cbn [all_chars]. rewrite Hc, Hws. reflexivity.
    + exists EmptyString, (String c s). repeat split. exact Hc.
Qed.

Lemma hex_split (s : string) :
  exists d r, s = d +:+ r /\ all_chars is_hex d = true /\ starts_with is_hex r = false.
Proof.
  induction s as [|c s (d & r & E & Hd & Hr)].
  - exists EmptyString, EmptyString. repeat split.
  - destruct (is_hex (char_code c)) eqn:Hc.
    + exists (String c d), r. rewrite E. repeat split; [|exact Hr].
      cbn [all_chars]. rewrite Hc, Hd. reflexivity.
    + exists EmptyString, (String c s). repeat split. exact Hc.
Qed.

Lemma prefix_split (body : string) :
  exists px d r,
    body = px +:+ d +:+ r /\ prefix_text px = true /\ all_chars is_hex d = true
    /\ starts_with is_hex r = false
    /\ (if is_empty px then negb (starts_0x_digit (d +:+ r)) else negb (is_empty d)) = true.
Proof.
  destruct (starts_0x_digit body) eqn:H0x.
  - destruct body as [|z [|x [|h body]]]; try discriminate.
    cbn [starts_0x_digit] in H0x. rewrite !andb_true_iff in H0x.
    destruct H0x as [[Hz Hx] Hh].
    destruct (hex_split (String h body)) as (d & r & E & Hd & Hr).
    exists (String z (String x EmptyString)), d, r.
    split; [change (String z (String x EmptyString) +:+ d +:+ r)
              with (String z (String x (d +:+ r))); rewrite <- E; reflexivity|].
    split; [cbn [prefix_text]; rewrite Hz, Hx; reflexivity|].
    split; [exact Hd|]. split; [exact Hr|].
    cbn [is_empty]. destruct d as [|c d]; [|reflexivity].
    change (EmptyString +:+ r) with r in E. subst r.
    cbn [starts_with] in Hr. congruence.
  - destruct (hex_split body) as (d & r & E & Hd & Hr).
    exists EmptyString, d, r. change (EmptyString +:+ d +:+ r) with (d +:+ r).
    split; [exact E|]. split; [reflexivity|]. split; [exact Hd|]. split; [exact Hr|].
    cbn [is_empty]. rewrite <- E, H0x. reflexivity.
Qed.

Lemma hex_reading_exists (s : string) :
  exists ws sg px d r,
    s = ws +:+ sg +:+ px +:+ d +:+ r /\ hex_reading ws sg px d r = true.
Proof.
  destruct (space_split s) as (ws & body & E & Hws & Hbody).
  destruct (starts_with is_sign body) eqn:Hsign.
  - destruct body as [|c body]; [discriminate|]. cbn [starts_with] in Hsign.
    destruct (prefix_split body) as (px & d & r & E' & Hpx & Hd & Hr & Hcanon).
    exists ws, (String c EmptyString), px, d, r.
    split; [rewrite E, E'; reflexivity|].
    unfold hex_reading. rewrite !andb_true_iff.
    repeat split; try assumption; [|rewrite Hr; reflexivity].
    apply bool_decide_eq_true_2. cbn [sign_text].
    unfold is_sign in Hsign.
    destruct (char_code c =? 45); [eauto|].
    rewrite orb_false_r in Hsign. rewrite Hsign. eauto.
  - destruct (prefix_split body) as (px & d & r & E' & Hpx & Hd & Hr & Hcanon).
    exists ws, EmptyString, px, d, r.
    split; [rewrite E, E'; reflexivity|].
    unfold hex_reading. rewrite !andb_true_iff.
    repeat split; try assumption; try (rewrite Hr; reflexivity);
      try (apply bool_decide_eq_true_2; cbn [sign_text]; eauto; fail).
    cbn [is_empty]. rewrite <- E'. apply negb_true_iff.
    destruct body as [|c body]; [reflexivity|].
    cbn [starts_with] in *. rewrite Hbody, Hsign. reflexivity.
Qed.

(** C6, as the code has it. On a string of eight characters the resolver
    is [std::stoi] in base 16. The string has a reading as blanks, an
    optional sign, an optional [0x] or [0X] in front of a hex digit, hex
    digits and a rest, and for every such reading the resolver returns
    the value of the digits, with the sign, when there is a digit and an
    [int] holds the value; with no digit [std::invalid_argument], and
    with a value beyond an [int] [std::out_of_range], leaves the resolver
    as [std::stoi] throws it. *)
Theorem fourCcFromString_hex (s : string) :
  String.length s = 8%nat ->
  (exists ws sg px d r,
     s = ws +:+ sg +:+ px +:+ d +:+ r /\ hex_reading ws sg px d r = true)
  /\ (forall ws sg px d r,
        s = ws +:+ sg +:+ px +:+ d +:+ r -> hex_reading ws sg px d r = true ->
        fourCcFromString s = reading_outcome sg d).
Proof.
  intros Hlen. split; [apply hex_reading_exists|].
  intros ws sg px d r E Hread.
  assert (Hrun : fourCcFromString s = stoi16 s).
  { unfold fourCcFromString. rewrite Hlen. reflexivity. }
  rewrite Hrun. subst s. apply stoi16_reading; [|exact Hread].
  rewrite !append_length in Hlen. lia.
Qed.

Lemma fourCcFromString_hex_witness :
  (exists ws sg px d r,
     "-1234567"%string = ws +:+ sg +:+ px +:+ d +:+ r /\ hex_reading ws sg px d r = true)
  /\ (forall ws sg px d r,
        "-1234567"%string = ws +:+ sg +:+ px +:+ d +:+ r ->
        hex_reading ws sg px d r = true ->
        fourCcFromString "-1234567" = reading_outcome sg d).
Proof.
  apply (fourCcFromString_hex "-1234567"). reflexivity.
Defined.

Example fourCcFromString_negative : fourCcFromString "-1234567" = Returned (- 0x1234567).
Proof. reflexivity. Qed.

Example fourCcFromString_sign_only : fourCcFromString "-zzzzzzz" = Threw invalid_argument.
Proof. reflexivity. Qed.
